(** * BitcoindWallet: the bitcoind JSON-RPC wallet client of the COMIT SDK

    A shallow embedding of [src/wallet/bitcoin.ts].  Every [async] method is a
    computation over a world made of the remote node and the store of
    wallet objects; running it yields the promise's outcome, the HTTP
    requests that were issued (in order) and the world afterwards.  The
    remote node is arbitrary: any state type and any reply function. *)

From Stdlib Require Import String Ascii List Bool Floats.
From stdpp Require Import base list strings.
Import ListNotations.
Local Open Scope string_scope.
Set Warnings "-register-all".
Set Default Proof Using "Type".

(** ** JavaScript values, as far as the client looks at them *)

(** A JS [number] is an IEEE-754 binary64. *)
Definition number : Type := float.

(** What [axios] hands back as [res.data]: a parsed JSON document, or
    [undefined]. *)
Inductive value : Type :=
| Undefined
| Null
| Bool (b : bool)
| Num (n : number)
| Str (s : string)
| Arr (items : list value)
| Obj (fields : list (string * value)).

(** Why a promise was rejected: the transport's error object, a [TypeError]
    raised by the runtime, or a plain string given to [Promise.reject]. *)
Inductive Reason : Type :=
| AxiosError (detail : string)
| TypeError
| Message (text : string).

Inductive Outcome (A : Type) : Type :=
| Resolved (a : A)
| Rejected (why : Reason).
Arguments Resolved {A} a.
Arguments Rejected {A} why.

(** [haystack.includes(needle)] on strings. *)
Fixpoint string_includes (needle haystack : string) : bool :=
  String.prefix needle haystack
  || match haystack with
     | EmptyString => false
     | String _ rest => string_includes needle rest
     end.

(** [v === s] for a string [s]: only a string with the same characters. *)
Definition strict_eq_string (v : value) (s : string) : bool :=
  match v with
  | Str t => String.eqb t s
  | _ => false
  end.

(** The value of an own property of a parsed JSON object; of duplicate keys
    the last one wins. *)
Definition own_prop (k : string) (fields : list (string * value)) : value :=
  match find (fun kv => String.eqb (fst kv) k) (rev fields) with
  | Some kv => snd kv
  | None => Undefined
  end.

(** [v.k] for the two keys the client reads, ["result"] and ["chain"], which
    no built-in prototype defines: reading from [undefined] or [null]
    throws, a primitive or an array has no such property. *)
Definition get_prop (v : value) (k : string) : Outcome value :=
  match v with
  | Undefined | Null => Rejected TypeError
  | Obj fields => Resolved (own_prop k fields)
  | _ => Resolved Undefined
  end.

(** [v.includes(s)] for a string [s]: [Array.prototype.includes] compares
    with SameValueZero, [String.prototype.includes] looks for a substring,
    and no other JSON value has a callable [includes]. *)
Definition includes (v : value) (s : string) : Outcome bool :=
  match v with
  | Arr items => Resolved (existsb (fun item => strict_eq_string item s) items)
  | Str t => Resolved (string_includes s t)
  | _ => Rejected TypeError
  end.

(** [!!privkey] for an optional string. *)
Definition truthy (privkey : option string) : bool :=
  match privkey with
  | Some EmptyString | None => false
  | Some _ => true
  end.

(** ** Requests and replies *)

Record Auth : Type := { username : string; password : string }.

(** The body of a JSON-RPC 1.0 call; [listwallets] is sent without
    [params]. *)
Record JsonRpc : Type :=
  { jsonrpc : string; rpc_method : string; params : option (list value) }.

Record AxiosRequestConfig : Type :=
  { url : string; method : string; auth : Auth; data : option JsonRpc }.

Record AxiosResponse : Type := { response_data : value }.

Inductive Reply : Type :=
| Answered (res : AxiosResponse)
| Failed (detail : string).

(** [{ ...config, data: body }] *)
Definition with_data (config : AxiosRequestConfig) (body : JsonRpc)
  : AxiosRequestConfig :=
  {| url := url config; method := method config; auth := auth config;
     data := Some body |}.

(** export type Network = "bitcoin" | "testnet" | "regtest" *)
Inductive Network : Type := bitcoin | testnet | regtest.

Definition network_string (network : Network) : string :=
  match network with
  | bitcoin => "bitcoin"
  | testnet => "testnet"
  | regtest => "regtest"
  end.

(** The object behind a wallet handle: its one private field. *)
Record BitcoindWallet : Type := { rpcRequestConfig : AxiosRequestConfig }.

(** A reference to a wallet object in the store. *)
Definition ref : Type := nat.

(** ** The client *)

Section Client.

(** [toBitcoin] of the package [satoshi-bitcoin], which the repository
    imports; it may throw. *)
Variable toBitcoin : number -> Outcome number.

(** The remote node. *)
Variable Node : Type.
Variable serve : Node -> AxiosRequestConfig -> Reply * Node.

Record World : Type := { node : Node; heap : list BitcoindWallet }.

Record Ran (A : Type) : Type :=
  { outcome : Outcome A; calls : list AxiosRequestConfig; after : World }.
Arguments outcome {A} _.
Arguments calls {A} _.
Arguments after {A} _.

Definition Async (A : Type) : Type := World -> Ran A.

Definition settle {A : Type} (o : Outcome A) : Async A :=
  fun w => {| outcome := o; calls := []; after := w |}.

Definition ret {A : Type} (a : A) : Async A := settle (Resolved a).

Definition reject {A : Type} (why : Reason) : Async A :=
  settle (Rejected why).

(** [await m], then the rest of the function body; a rejection ends the
    body. *)
Definition await {A B : Type} (m : Async A) (k : A -> Async B) : Async B :=
  fun w =>
    let r := m w in
    match outcome r with
    | Resolved a =>
        let r' := k a (after r) in
        {| outcome := outcome r'; calls := calls r ++ calls r';
           after := after r' |}
    | Rejected why =>
        {| outcome := Rejected why; calls := calls r; after := after r |}
    end.

Notation "x <- m ;; k" := (await m (fun x => k))
  (at level 100, m at next level, right associativity).

(** [axios.request(config)]: one HTTP round trip to the node. *)
Definition axios_request (config : AxiosRequestConfig)
  : Async AxiosResponse :=
  fun w =>
    let (reply, node') := serve (node w) config in
    {| outcome := match reply with
                  | Answered res => Resolved res
                  | Failed detail => Rejected (AxiosError detail)
                  end;
       calls := [config];
       after := {| node := node'; heap := heap w |} |}.

(** [axios.post(url, data, { auth })] *)
Definition axios_post (to : string) (body : JsonRpc) (a : Auth)
  : Async AxiosResponse :=
  axios_request {| url := to; method := "post"; auth := a;
                   data := Some body |}.

(** [new BitcoindWallet(rpcRequestConfig)] *)
Definition new_BitcoindWallet (config : AxiosRequestConfig) : Async ref :=
  fun w =>
    {| outcome := Resolved (length (heap w)); calls := [];
       after := {| node := node w;
                   heap := heap w ++ [{| rpcRequestConfig := config |}] |} |}.

(** [this.rpcRequestConfig] *)
Definition this_rpcRequestConfig (this : ref) : Async AxiosRequestConfig :=
  fun w =>
    settle match heap w !! this with
           | Some object => Resolved (rpcRequestConfig object)
           | None => Rejected TypeError
           end w.

Definition newInstance (httpUrl username password walletName : string)
    (privkey : option string) : Async ref :=
  let auth := {| username := username; password := password |} in
  walletExists <-
    (res <- axios_post httpUrl
              {| jsonrpc := "1.0"; rpc_method := "listwallets";
                 params := None |} auth ;;
     result <- settle (get_prop (response_data res) "result") ;;
     settle (includes result walletName)) ;;
  _ <- (if negb walletExists
        then
          _ <- axios_post httpUrl
                 {| jsonrpc := "1.0"; rpc_method := "createwallet";
                    params := Some [Str walletName] |} auth ;;
          ret tt
        else ret tt) ;;
  let rpcRequestConfig :=
    {| url := httpUrl ++ "/wallet/" ++ walletName; method := "post";
       auth := auth; data := None |} in
  _ <- (if truthy privkey
        then
          _ <- axios_request
                 (with_data rpcRequestConfig
                    {| jsonrpc := "1.0"; rpc_method := "importprivkey";
                       params := Some match privkey with
                                      | Some key => [Str key]
                                      | None => [Undefined]
                                      end |}) ;;
          ret tt
        else ret tt) ;;
  new_BitcoindWallet rpcRequestConfig.

Definition getBalance (this : ref) : Async value :=
  config <- this_rpcRequestConfig this ;;
  res <- axios_request
           (with_data config
              {| jsonrpc := "1.0"; rpc_method := "getbalance";
                 params := Some [] |}) ;;
  settle (get_prop (response_data res) "result").

Definition getAddress (this : ref) : Async value :=
  config <- this_rpcRequestConfig this ;;
  res <- axios_request
           (with_data config
              {| jsonrpc := "1.0"; rpc_method := "getnewaddress";
                 params := Some [] |}) ;;
  settle (get_prop (response_data res) "result").

Definition mismatch_message (network : Network) : string :=
  "This wallet is only connected to the " ++ network_string network
  ++ " network and cannot perform actions on the "
  ++ network_string network ++ " network".

Definition assertNetwork (this : ref) (network : Network) : Async unit :=
  config <- this_rpcRequestConfig this ;;
  res <- axios_request
           (with_data config
              {| jsonrpc := "1.0"; rpc_method := "getblockchaininfo";
                 params := Some [] |}) ;;
  result <- settle (get_prop (response_data res) "result") ;;
  chain <- settle (get_prop result "chain") ;;
  if negb (strict_eq_string chain (network_string network))
  then reject (Message (mismatch_message network))
  else ret tt.

Definition sendToAddress (this : ref) (address : string)
    (satoshis : number) (network : Network) : Async value :=
  _ <- assertNetwork this network ;;
  config <- this_rpcRequestConfig this ;;
  amount <- settle (toBitcoin satoshis) ;;
  res <- axios_request
           (with_data config
              {| jsonrpc := "1.0"; rpc_method := "sendtoaddress";
                 params := Some [Str address; Num amount] |}) ;;
  settle (get_prop (response_data res) "result").

Definition broadcastTransaction (this : ref) (transactionHex : string)
    (network : Network) : Async value :=
  _ <- assertNetwork this network ;;
  config <- this_rpcRequestConfig this ;;
  res <- axios_request
           (with_data config
              {| jsonrpc := "1.0"; rpc_method := "sendrawtransaction";
                 params := Some [Str transactionHex] |}) ;;
  settle (get_prop (response_data res) "result").

Definition getFee (this : ref) : string := "150".

Definition close (this : ref) : Async unit :=
  config <- this_rpcRequestConfig this ;;
  _ <- axios_request
         (with_data config
            {| jsonrpc := "1.0"; rpc_method := "unloadwallet";
               params := Some [] |}) ;;
  ret tt.

(** The calls a holder of a wallet handle can make, with their
    arguments. *)
Inductive Call : Type :=
| GetBalance
| GetAddress
| SendToAddress (address : string) (satoshis : number) (network : Network)
| BroadcastTransaction (transactionHex : string) (network : Network)
| GetFee
| Close.

Definition invoke (this : ref) (c : Call) : Async value :=
  match c with
  | GetBalance => getBalance this
  | GetAddress => getAddress this
  | SendToAddress address satoshis network =>
      sendToAddress this address satoshis network
  | BroadcastTransaction transactionHex network =>
      broadcastTransaction this transactionHex network
  | GetFee => ret (Str (getFee this))
  | Close => _ <- close this ;; ret Undefined
  end.

(** A caller making one call after the other on the same handle, going on
    whatever the outcome of each: the requests issued, and the world at
    the end. *)
Fixpoint session (this : ref) (cs : list Call) (w : World)
  : list AxiosRequestConfig * World :=
  match cs with
  | [] => ([], w)
  | c :: rest =>
      let r := invoke this c w in
      let (issued, w') := session this rest (after r) in
      ((calls r ++ issued)%list, w')
  end.

End Client.

Arguments node {Node} _.
Arguments heap {Node} _.
Arguments outcome {Node A} _.
Arguments calls {Node A} _.
Arguments after {Node A} _.

(** ** Vocabulary of the statements *)

(** The JSON-RPC method a request calls. *)
Definition method_of (c : AxiosRequestConfig) : string :=
  match data c with
  | Some body => rpc_method body
  | None => ""
  end.

(** Whether a request for the method [m] is among [requests]. *)
Definition issues (m : string) (requests : list AxiosRequestConfig) : bool :=
  existsb (fun c => String.eqb (method_of c) m) requests.

(** The requests of the construction protocol. *)
Definition listwallets_request (httpUrl : string) (a : Auth)
  : AxiosRequestConfig :=
  {| url := httpUrl; method := "post"; auth := a;
     data := Some {| jsonrpc := "1.0"; rpc_method := "listwallets";
                     params := None |} |}.

Definition createwallet_request (httpUrl : string) (a : Auth)
    (walletName : string) : AxiosRequestConfig :=
  {| url := httpUrl; method := "post"; auth := a;
     data := Some {| jsonrpc := "1.0"; rpc_method := "createwallet";
                     params := Some [Str walletName] |} |}.

(** The configuration a handle made for [walletName] stores. *)
Definition wallet_config (httpUrl : string) (a : Auth) (walletName : string)
  : AxiosRequestConfig :=
  {| url := httpUrl ++ "/wallet/" ++ walletName; method := "post";
     auth := a; data := None |}.

Definition importprivkey_request (httpUrl : string) (a : Auth)
    (walletName key : string) : AxiosRequestConfig :=
  with_data (wallet_config httpUrl a walletName)
    {| jsonrpc := "1.0"; rpc_method := "importprivkey";
       params := Some [Str key] |}.

(** What the reply to [listwallets] says about [walletName]. *)
Definition listed (reply : Reply) (walletName : string) : Outcome bool :=
  match reply with
  | Failed detail => Rejected (AxiosError detail)
  | Answered res =>
      match get_prop (response_data res) "result" with
      | Resolved result => includes result walletName
      | Rejected why => Rejected why
      end
  end.

(** The construction protocol as the specification numbers it: list the
    wallets, create the wallet if it is absent, import the key if one was
    supplied. *)
Definition construction_plan (httpUrl : string) (a : Auth)
    (walletName : string) (privkey : option string) (present : Outcome bool)
  : list AxiosRequestConfig :=
  listwallets_request httpUrl a
  :: match present with
     | Rejected _ => []
     | Resolved exists_already =>
         (if exists_already then []
          else [createwallet_request httpUrl a walletName])
         ++ match privkey with
            | Some key =>
                if truthy privkey
                then [importprivkey_request httpUrl a walletName key]
                else []
            | None => []
            end
     end.

(** The requests of the network check and of the two funds-moving calls,
    as sent for a handle with configuration [config]. *)
Definition getblockchaininfo_request (config : AxiosRequestConfig)
  : AxiosRequestConfig :=
  with_data config
    {| jsonrpc := "1.0"; rpc_method := "getblockchaininfo";
       params := Some [] |}.

Definition sendtoaddress_request (config : AxiosRequestConfig)
    (address : string) (amount : number) : AxiosRequestConfig :=
  with_data config
    {| jsonrpc := "1.0"; rpc_method := "sendtoaddress";
       params := Some [Str address; Num amount] |}.

Definition sendrawtransaction_request (config : AxiosRequestConfig)
    (transactionHex : string) : AxiosRequestConfig :=
  with_data config
    {| jsonrpc := "1.0"; rpc_method := "sendrawtransaction";
       params := Some [Str transactionHex] |}.

(** What the reply to [getblockchaininfo] leads the check to. *)
Definition check_outcome (reply : Reply) (network : Network) : Outcome unit :=
  match reply with
  | Failed detail => Rejected (AxiosError detail)
  | Answered res =>
      match get_prop (response_data res) "result" with
      | Rejected why => Rejected why
      | Resolved result =>
          match get_prop result "chain" with
          | Rejected why => Rejected why
          | Resolved chain =>
              if strict_eq_string chain (network_string network)
              then Resolved tt
              else Rejected (Message (mismatch_message network))
          end
      end
  end.

(** The node's reply to the network check carries [chain] in the [chain]
    field of its result. *)
Definition reports_chain (reply : Reply) (chain : value) : Prop :=
  exists res result,
    reply = Answered res
    /\ get_prop (response_data res) "result" = Resolved result
    /\ get_prop result "chain" = Resolved chain.

Section NodeProperties.

Variable Node : Type.
Variable serve : Node -> AxiosRequestConfig -> Reply * Node.

(** In state [s] the node answers the request [listing] with a list of
    wallets that has [walletName] in it. *)
Definition lists_wallet (listing : AxiosRequestConfig)
    (walletName : string) (s : Node) : Prop :=
  listed (fst (serve s listing)) walletName = Resolved true.

(** A node that keeps its wallets loaded: a wallet it has created is
    listed from then on, to the caller who created it, until someone
    unloads a wallet. *)
Record keeps_wallets : Prop :=
  { created_is_listed :
      forall s httpUrl a walletName res s',
        serve s (createwallet_request httpUrl a walletName)
        = (Answered res, s') ->
        lists_wallet (listwallets_request httpUrl a) walletName s';
    listed_is_kept :
      forall s c s' listing walletName,
        method_of c <> "unloadwallet" ->
        snd (serve s c) = s' ->
        lists_wallet listing walletName s ->
        lists_wallet listing walletName s' }.

(** A request goes to the endpoint of [config], with its HTTP method and
    its credentials. *)
Definition same_endpoint (config c : AxiosRequestConfig) : Prop :=
  url c = url config /\ method c = method config /\ auth c = auth config.

(** The computation leaves the store of wallet objects as it found it,
    whatever its outcome. *)
Definition frames {A : Type} (m : Async Node A) : Prop :=
  forall w, heap (after (m w)) = heap w.

(** Run on a handle whose object is [object], the computation sends all
    its requests to that object's endpoint. *)
Definition sends_as (object : BitcoindWallet) (this : ref) {A : Type}
    (m : Async Node A) : Prop :=
  forall w,
    heap w !! this = Some object ->
    Forall (same_endpoint (rpcRequestConfig object)) (calls (m w)).

End NodeProperties.

Arguments lists_wallet {Node} serve listing walletName s.
Arguments keeps_wallets {Node} serve.
Arguments frames {Node A} m.
Arguments sends_as {Node} object this {A} m.

(** ** A scripted node, to run the client on concrete inputs *)

Module Sim.

Record state : Type := { wallets : list string; chain : value }.

Definition result_of (v : value) : Reply :=
  Answered {| response_data :=
                Obj [("result", v); ("error", Null); ("id", Null)] |}.

Definition serve (s : state) (c : AxiosRequestConfig) : Reply * state :=
  match data c with
  | None => (Failed "Request failed with status code 400", s)
  | Some body =>
      let m := rpc_method body in
      if String.eqb m "listwallets"
      then (result_of (Arr (map Str (wallets s))), s)
      else if String.eqb m "createwallet"
      then match params body with
           | Some [Str name] =>
               (result_of (Obj [("name", Str name); ("warning", Str "")]),
                {| wallets := wallets s ++ [name]; chain := chain s |})
           | _ => (Failed "Request failed with status code 500", s)
           end
      else if String.eqb m "getblockchaininfo"
      then (result_of (Obj [("chain", chain s); ("blocks", Null)]), s)
      else if String.eqb m "sendtoaddress"
      then (result_of (Str "txid-1"), s)
      else if String.eqb m "sendrawtransaction"
      then (result_of (Str "txid-2"), s)
      else (result_of Null, s)
  end.

(** [toBitcoin] on whole numbers of satoshis. *)
Definition toBitcoin (satoshis : number) : Outcome number :=
  Resolved (satoshis / 100000000)%float.

Definition world (names : list string) (c : value) (objects : list BitcoindWallet)
  : World state :=
  {| node := {| wallets := names; chain := c |}; heap := objects |}.

Definition alice : Auth := {| username := "alice"; password := "secret" |}.

Definition handle : BitcoindWallet :=
  {| rpcRequestConfig := wallet_config "http://localhost:18443" alice "c" |}.

End Sim.

(** ** Vocabulary for the remaining operations *)

(** The requests of the read-only calls and of [close], as sent for a
    handle with configuration [config]. *)
Definition getbalance_request (config : AxiosRequestConfig)
  : AxiosRequestConfig :=
  with_data config
    {| jsonrpc := "1.0"; rpc_method := "getbalance"; params := Some [] |}.

Definition getnewaddress_request (config : AxiosRequestConfig)
  : AxiosRequestConfig :=
  with_data config
    {| jsonrpc := "1.0"; rpc_method := "getnewaddress"; params := Some [] |}.

Definition unloadwallet_request (config : AxiosRequestConfig)
  : AxiosRequestConfig :=
  with_data config
    {| jsonrpc := "1.0"; rpc_method := "unloadwallet"; params := Some [] |}.


(** What a call that hands back [res.data.result] makes of a reply. *)
Definition result_of_reply (reply : Reply) : Outcome value :=
  match reply with
  | Answered res => get_prop (response_data res) "result"
  | Failed detail => Rejected (AxiosError detail)
  end.

(** A request with a JSON-RPC 1.0 body that has a [params] array. *)
Definition jsonrpc_call (c : AxiosRequestConfig) : Prop :=
  exists body arguments,
    data c = Some body
    /\ jsonrpc body = "1.0"
    /\ params body = Some arguments.

(** Every request the computation sends satisfies [P], from any world. *)
Definition all_calls {Node : Type} (P : AxiosRequestConfig -> Prop)
    {A : Type} (m : Async Node A) : Prop :=
  forall w, Forall P (calls (m w)).

(** A node that cannot be reached: every request fails in the transport. *)
Definition unreachable (detail : string) (s : unit) (c : AxiosRequestConfig)
  : Reply * unit :=
  (Failed detail, s).

(** A node that answers its first [s] requests with [body] and fails every
    later one in the transport. *)
Definition failing_after (body : value) (detail : string) (s : nat)
    (c : AxiosRequestConfig) : Reply * nat :=
  match s with
  | O => (Failed detail, O)
  | S s' => (Answered {| response_data := body |}, s')
  end.

(** ** Running the client *)

Ltac unfold_async :=
  unfold await, settle, ret, reject, axios_post, axios_request,
    this_rpcRequestConfig, new_BitcoindWallet in *.

Section Runs.

Context (toBitcoin : number -> Outcome number).
Context {Node : Type} (serve : Node -> AxiosRequestConfig -> Reply * Node).

Implicit Types (w : World Node) (this : ref) (object : BitcoindWallet).

Lemma axios_request_run c w :
  axios_request Node serve c w
  = {| outcome := match fst (serve (node w) c) with
                  | Answered res => Resolved res
                  | Failed detail => Rejected (AxiosError detail)
                  end;
       calls := [c];
       after := {| node := snd (serve (node w) c); heap := heap w |} |}.
Proof. unfold axios_request. by destruct (serve (node w) c). Qed.

(** The network check is one request, and its outcome is read off the
    reply. *)
Lemma assertNetwork_run w this object network :
  heap w !! this = Some object ->
  let check := getblockchaininfo_request (rpcRequestConfig object) in
  assertNetwork Node serve this network w
  = {| outcome := check_outcome (fst (serve (node w) check)) network;
       calls := [check];
       after := {| node := snd (serve (node w) check); heap := heap w |} |}.
Proof.
  intros Hobj check. subst check.
  unfold assertNetwork, getblockchaininfo_request, check_outcome.
  unfold_async. rewrite Hobj. cbn.
  destruct (serve _ _) as [[res|detail] s']; cbn; [|done].
  destruct (get_prop (response_data res) "result") as [result|]; cbn;
    [|done].
  destruct (get_prop result "chain") as [chain|]; cbn; [|done].
  by destruct (strict_eq_string chain (network_string network)).
Qed.

Lemma strict_eq_string_true (v : value) (s : string) :
  strict_eq_string v s = true <-> v = Str s.
Proof.
  destruct v; cbn; try (split; [discriminate | congruence]).
  rewrite String.eqb_eq. split; congruence.
Qed.

Lemma check_outcome_reported reply chain network :
  reports_chain reply chain ->
  check_outcome reply network
  = if strict_eq_string chain (network_string network)
    then Resolved tt
    else Rejected (Message (mismatch_message network)).
Proof.
  intros (res & result & -> & Hres & Hchain). cbn. by rewrite Hres, Hchain.
Qed.

(** After the network check, [sendToAddress] converts the amount and
    sends one request. *)
Lemma sendToAddress_run w this object address satoshis network :
  heap w !! this = Some object ->
  let config := rpcRequestConfig object in
  let check := assertNetwork Node serve this network w in
  sendToAddress toBitcoin Node serve this address satoshis network w
  = match outcome check, toBitcoin satoshis with
    | Rejected why, _ | Resolved _, Rejected why =>
        {| outcome := Rejected why; calls := calls check;
           after := after check |}
    | Resolved _, Resolved amount =>
        let send :=
          axios_request Node serve
            (sendtoaddress_request config address amount) (after check) in
        {| outcome := match outcome send with
                      | Resolved res => get_prop (response_data res) "result"
                      | Rejected why => Rejected why
                      end;
           calls := calls check ++ calls send;
           after := after send |}
    end.
Proof.
  intros Hobj config check. subst config check.
  unfold sendToAddress, await, this_rpcRequestConfig, settle.
  rewrite (assertNetwork_run _ _ _ network Hobj). cbn.
  destruct (check_outcome _ _) as [[]|why]; [|done].
  rewrite Hobj. cbn.
  destruct (toBitcoin satoshis) as [amount|why]; [|done].
  rewrite ?axios_request_run. cbn. unfold sendtoaddress_request.
  by destruct (serve _ _) as [[res|detail] s'].
Qed.

Lemma broadcastTransaction_run w this object transactionHex network :
  heap w !! this = Some object ->
  let config := rpcRequestConfig object in
  let check := assertNetwork Node serve this network w in
  broadcastTransaction Node serve this transactionHex network w
  = match outcome check with
    | Rejected why =>
        {| outcome := Rejected why; calls := calls check;
           after := after check |}
    | Resolved _ =>
        let send :=
          axios_request Node serve
            (sendrawtransaction_request config transactionHex)
            (after check) in
        {| outcome := match outcome send with
                      | Resolved res => get_prop (response_data res) "result"
                      | Rejected why => Rejected why
                      end;
           calls := calls check ++ calls send;
           after := after send |}
    end.
Proof.
  intros Hobj config check. subst config check.
  unfold broadcastTransaction, await, this_rpcRequestConfig, settle.
  rewrite (assertNetwork_run _ _ _ network Hobj). cbn.
  destruct (check_outcome _ _) as [[]|why]; [|done].
  rewrite Hobj. cbn. rewrite ?axios_request_run. cbn.
  unfold sendrawtransaction_request.
  by destruct (serve _ _) as [[res|detail] s'].
Qed.

Lemma check_differs_rejected w this object network chain :
  heap w !! this = Some object ->
  reports_chain
    (fst (serve (node w)
            (getblockchaininfo_request (rpcRequestConfig object)))) chain ->
  chain <> Str (network_string network) ->
  outcome (assertNetwork Node serve this network w)
  = Rejected (Message (mismatch_message network)).
Proof.
  intros Hobj Hchain Hne. rewrite (assertNetwork_run _ _ _ network Hobj).
  cbn. rewrite (check_outcome_reported _ _ _ Hchain).
  destruct (strict_eq_string chain (network_string network)) eqn:E; [|done].
  by apply strict_eq_string_true in E.
Qed.

Lemma check_equal_resolved w this object network chain :
  heap w !! this = Some object ->
  reports_chain
    (fst (serve (node w)
            (getblockchaininfo_request (rpcRequestConfig object)))) chain ->
  chain = Str (network_string network) ->
  outcome (assertNetwork Node serve this network w) = Resolved tt.
Proof.
  intros Hobj Hchain ->. rewrite (assertNetwork_run _ _ _ network Hobj).
  cbn. rewrite (check_outcome_reported _ _ _ Hchain). cbn.
  by rewrite String.eqb_refl.
Qed.

Lemma mismatch_message_names network :
  string_includes (network_string network) (mismatch_message network)
  = true.
Proof. by destruct network. Qed.

(** C1. For each of the three networks, [sendToAddress] and
    [broadcastTransaction] send the [getblockchaininfo] request first and
    at most one request after it, the funds-moving one; when the check
    does not pass, in particular when the chain the node reports is not
    the requested network, the check is the only request sent. *)
Theorem network_check_precedes_funds_moving
    w this object address satoshis transactionHex network :
  heap w !! this = Some object ->
  let config := rpcRequestConfig object in
  let check := getblockchaininfo_request config in
  let s :=
    sendToAddress toBitcoin Node serve this address satoshis network w in
  let b := broadcastTransaction Node serve this transactionHex network w in
  (exists rest,
      calls s = check :: rest
      /\ (rest = []
          \/ exists amount,
              toBitcoin satoshis = Resolved amount
              /\ rest = [sendtoaddress_request config address amount]))
  /\ (exists rest,
         calls b = check :: rest
         /\ (rest = []
             \/ rest = [sendrawtransaction_request config transactionHex]))
  /\ (outcome (assertNetwork Node serve this network w) <> Resolved tt ->
      calls s = [check] /\ calls b = [check])
  /\ (forall chain,
         reports_chain (fst (serve (node w) check)) chain ->
         chain <> Str (network_string network) ->
         issues "sendtoaddress" (calls s) = false
         /\ issues "sendrawtransaction" (calls b) = false).
Proof.
  intros Hobj config check s b. subst s b.
  rewrite (sendToAddress_run _ _ _ address satoshis network Hobj),
    (broadcastTransaction_run _ _ _ transactionHex network Hobj).
  cbn zeta. fold config.
  assert (Hcalls : calls (assertNetwork Node serve this network w) = [check])
    by (by rewrite (assertNetwork_run _ _ _ network Hobj)).
  split_and!.
  - destruct (outcome (assertNetwork _ _ _ _ _)) as [[]|why].
    + destruct (toBitcoin satoshis) as [amount|why] eqn:Hamount; cbn.
      * rewrite Hcalls, axios_request_run. cbn. eauto 6.
      * rewrite Hcalls. eauto.
    + destruct (toBitcoin satoshis); cbn; rewrite Hcalls; eauto.
  - destruct (outcome (assertNetwork _ _ _ _ _)) as [[]|why]; cbn.
    + rewrite Hcalls, axios_request_run. cbn. eauto.
    + rewrite Hcalls. eauto.
  - intros Hfail.
    destruct (outcome (assertNetwork _ _ _ _ _)) as [[]|why]; [done|].
    by destruct (toBitcoin satoshis).
  - intros chain Hchain Hne.
    rewrite (check_differs_rejected _ _ _ _ _ Hobj Hchain Hne).
    destruct (toBitcoin satoshis); cbn; by rewrite Hcalls.
Qed.

(** C3. Whatever the node reports in the [chain] field of its
    [getblockchaininfo] result, the network assertion rejects with the
    network-mismatch message exactly when that value is not the string
    of the requested network, and so do [sendToAddress] and
    [broadcastTransaction]; when it is that string the assertion passes
    and the funds-moving request is sent. *)
Theorem assertNetwork_rejects_iff_chain_differs
    w this object address satoshis transactionHex network chain :
  heap w !! this = Some object ->
  let config := rpcRequestConfig object in
  let check := getblockchaininfo_request config in
  let s :=
    sendToAddress toBitcoin Node serve this address satoshis network w in
  let b := broadcastTransaction Node serve this transactionHex network w in
  reports_chain (fst (serve (node w) check)) chain ->
  (outcome (assertNetwork Node serve this network w)
   = Rejected (Message (mismatch_message network))
   <-> chain <> Str (network_string network))
  /\ (chain <> Str (network_string network) ->
      outcome s = Rejected (Message (mismatch_message network))
      /\ outcome b = Rejected (Message (mismatch_message network)))
  /\ (chain = Str (network_string network) ->
      outcome (assertNetwork Node serve this network w) = Resolved tt
      /\ calls b = [check; sendrawtransaction_request config transactionHex]
      /\ forall amount,
          toBitcoin satoshis = Resolved amount ->
          calls s = [check; sendtoaddress_request config address amount]).
Proof.
  intros Hobj config check s b Hchain. subst s b.
  rewrite (sendToAddress_run _ _ _ address satoshis network Hobj),
    (broadcastTransaction_run _ _ _ transactionHex network Hobj).
  cbn zeta. fold config.
  assert (Hcalls : calls (assertNetwork Node serve this network w) = [check])
    by (by rewrite (assertNetwork_run _ _ _ network Hobj)).
  split_and!.
  - split.
    + intros Hrej ->.
      by rewrite (check_equal_resolved _ _ _ _ _ Hobj Hchain eq_refl)
        in Hrej.
    + apply (check_differs_rejected _ _ _ _ _ Hobj Hchain).
  - intros Hne.
    rewrite (check_differs_rejected _ _ _ _ _ Hobj Hchain Hne).
    by destruct (toBitcoin satoshis).
  - intros Heq.
    rewrite (check_equal_resolved _ _ _ _ _ Hobj Hchain Heq).
    split_and!; [done| |].
    + by rewrite Hcalls, axios_request_run.
    + intros amount ->. by rewrite Hcalls, axios_request_run.
Qed.

(** C7. When the node reports a chain that is not the requested network,
    [sendToAddress] and [broadcastTransaction] are rejected with a message
    in which the name of the requested network occurs, and neither sends
    its funds-moving request. *)
Theorem mismatch_rejected_naming_expected_network
    w this object address satoshis transactionHex network chain :
  heap w !! this = Some object ->
  let check := getblockchaininfo_request (rpcRequestConfig object) in
  let s :=
    sendToAddress toBitcoin Node serve this address satoshis network w in
  let b := broadcastTransaction Node serve this transactionHex network w in
  reports_chain (fst (serve (node w) check)) chain ->
  chain <> Str (network_string network) ->
  exists text,
    outcome s = Rejected (Message text)
    /\ outcome b = Rejected (Message text)
    /\ string_includes (network_string network) text = true
    /\ issues "sendtoaddress" (calls s) = false
    /\ issues "sendrawtransaction" (calls b) = false
    /\ calls s = [check] /\ calls b = [check].
Proof.
  intros Hobj check s b Hchain Hne. subst s b.
  rewrite (sendToAddress_run _ _ _ address satoshis network Hobj),
    (broadcastTransaction_run _ _ _ transactionHex network Hobj).
  cbn zeta.
  assert (Hcalls : calls (assertNetwork Node serve this network w) = [check])
    by (by rewrite (assertNetwork_run _ _ _ network Hobj)).
  rewrite (check_differs_rejected _ _ _ _ _ Hobj Hchain Hne).
  exists (mismatch_message network).
  rewrite mismatch_message_names.
  destruct (toBitcoin satoshis); cbn; by rewrite Hcalls.
Qed.

Lemma mismatch_message_omits_other_networks network other :
  other <> network ->
  string_includes (network_string other) (mismatch_message network)
  = false.
Proof. by destruct network, other. Qed.

(** C9, as amended. On a mismatch the rejection message is the fixed
    text with the requested network written in both of its places,
    whatever chain the node reported; when the reported chain is another
    of the three network names, that name does not occur in the
    message. *)
Theorem mismatch_message_interpolates_requested_network
    w this object network chain :
  heap w !! this = Some object ->
  reports_chain
    (fst (serve (node w)
            (getblockchaininfo_request (rpcRequestConfig object)))) chain ->
  chain <> Str (network_string network) ->
  outcome (assertNetwork Node serve this network w)
  = Rejected
      (Message
         ("This wallet is only connected to the " ++ network_string network
          ++ " network and cannot perform actions on the "
          ++ network_string network ++ " network"))
  /\ forall other,
      chain = Str (network_string other) ->
      string_includes (network_string other) (mismatch_message network)
      = false.
Proof.
  intros Hobj Hchain Hne. split.
  - apply (check_differs_rejected _ _ _ _ _ Hobj Hchain Hne).
  - intros other ->. apply mismatch_message_omits_other_networks.
    congruence.
Qed.

(** [await] on a computation whose run is known. *)
Lemma await_step {A B} (m : Async Node A) (k : A -> Async Node B) w o sent w' :
  m w = {| outcome := o; calls := sent; after := w' |} ->
  await Node m k w
  = match o with
    | Resolved a =>
        {| outcome := outcome (k a w'); calls := sent ++ calls (k a w');
           after := after (k a w') |}
    | Rejected why =>
        {| outcome := Rejected why; calls := sent; after := w' |}
    end.
Proof. intros Hm. unfold await. by rewrite Hm. Qed.

(** The existence check of [newInstance]. *)
Lemma listing_run w httpUrl a walletName :
  await Node
    (axios_post Node serve httpUrl
       {| jsonrpc := "1.0"; rpc_method := "listwallets"; params := None |}
       a)
    (fun res =>
       await Node (settle Node (get_prop (response_data res) "result"))
         (fun result => settle Node (includes result walletName))) w
  = {| outcome :=
         listed (fst (serve (node w) (listwallets_request httpUrl a)))
           walletName;
       calls := [listwallets_request httpUrl a];
       after := {| node := snd (serve (node w)
                                  (listwallets_request httpUrl a));
                   heap := heap w |} |}.
Proof.
  unfold axios_post.
  rewrite (await_step _ _ _ _ _ _ (axios_request_run _ w)).
  fold (listwallets_request httpUrl a).
  destruct (fst (serve _ _)) as [res|detail]; [|done]. cbn.
  unfold await, settle. cbn.
  by destruct (get_prop (response_data res) "result").
Qed.

(** A request whose answer is not looked at. *)
Lemma request_run c w :
  await Node (axios_request Node serve c) (fun _ => ret Node tt) w
  = {| outcome := match fst (serve (node w) c) with
                  | Answered _ => Resolved tt
                  | Failed detail => Rejected (AxiosError detail)
                  end;
       calls := [c];
       after := {| node := snd (serve (node w) c); heap := heap w |} |}.
Proof.
  rewrite (await_step _ _ _ _ _ _ (axios_request_run _ w)).
  by destruct (fst (serve _ _)).
Qed.

(** What a run of [newInstance] sends and leaves behind, read off the
    node's replies. *)
Lemma newInstance_facts w httpUrl username password walletName privkey :
  let a := {| username := username; password := password |} in
  let r :=
    newInstance Node serve httpUrl username password walletName privkey w in
  let listing := listwallets_request httpUrl a in
  let create := createwallet_request httpUrl a walletName in
  let present := listed (fst (serve (node w) listing)) walletName in
  let plan := construction_plan httpUrl a walletName privkey present in
  calls r `prefix_of` plan
  /\ (exists rest, calls r = listing :: rest)
  /\ (issues "createwallet" (calls r) = true -> present = Resolved false)
  /\ (present = Resolved true -> issues "createwallet" (calls r) = false)
  /\ (truthy privkey = false -> issues "importprivkey" (calls r) = false)
  /\ (forall handle,
         outcome r = Resolved handle ->
         calls r = plan
         /\ heap (after r)
            = (heap w
               ++ [{| rpcRequestConfig :=
                        wallet_config httpUrl a walletName |}])%list
         /\ heap (after r) !! handle
            = Some {| rpcRequestConfig :=
                        wallet_config httpUrl a walletName |}
         /\ exists exists_already,
             present = Resolved exists_already
             /\ let s1 := snd (serve (node w) listing) in
                let s2 :=
                  if exists_already then s1 else snd (serve s1 create) in
                (exists_already = false ->
                 exists res, fst (serve s1 create) = Answered res)
                /\ node (after r)
                   = match privkey with
                     | Some key =>
                         if truthy privkey
                         then snd (serve s2
                                     (importprivkey_request httpUrl a
                                        walletName key))
                         else s2
                     | None => s2
                     end).
Proof.
  intros a r listing create present plan.
  subst r present plan. unfold newInstance. cbn zeta. fold a.
  rewrite (await_step _ _ _ _ _ _ (listing_run w httpUrl a walletName)).
  fold listing.
  unfold construction_plan. fold listing create.
  destruct (listed _ walletName) as [exists_already|why].
  2:{ split_and!; try done; by eexists. }
  assert (Hnew : forall object handle,
             @Resolved ref (length (heap w)) = Resolved handle ->
             (heap w ++ [object])%list !! handle = Some object).
  { intros object handle [= <-]. by apply list_lookup_middle. }
  cbn [outcome calls after].
  set (s1 := snd (serve (node w) listing)).
  assert (Hret : forall (k : unit -> Async Node ref) w',
             await Node (ret Node tt) k w'
             = {| outcome := outcome (k tt w');
                  calls := calls (k tt w'); after := after (k tt w') |})
    by done.
  assert (Hreq : forall c (k : unit -> Async Node ref) w',
             await Node
               (await Node (axios_request Node serve c)
                  (fun _ => ret Node tt)) k w'
             = let w'' := {| node := snd (serve (node w') c);
                             heap := heap w' |} in
               match fst (serve (node w') c) with
               | Answered _ =>
                   {| outcome := outcome (k tt w'');
                      calls := c :: calls (k tt w'');
                      after := after (k tt w'') |}
               | Failed detail =>
                   {| outcome := Rejected (AxiosError detail);
                      calls := [c]; after := w'' |}
               end).
  { intros c k w'. rewrite (await_step _ _ _ _ _ _ (request_run c w')).
    by destruct (fst (serve _ _)). }
  unfold axios_post. fold create.
  fold (importprivkey_request httpUrl a walletName).
  destruct exists_already; cbn [negb].
  - rewrite Hret.
    destruct privkey as [[|c key]|]; cbn [truthy];
      rewrite ?Hret, ?Hreq; cbn;
      [|destruct (fst (serve s1 _)) as [res3|detail]; cbn|];
      split_and!; try done; try (by eexists);
      intros handle Hhandle; split_and!; try done;
      try (by apply Hnew); by exists true.
  - rewrite Hreq. cbn zeta. cbn [node heap]. fold s1.
    fold (createwallet_request httpUrl a walletName).
    destruct (fst (serve s1 (createwallet_request httpUrl a walletName)))
      as [res2|detail] eqn:E2.
    2:{ cbn. split_and!; try done; [|by eexists].
        destruct privkey as [[|c key]|]; by eexists. }
    destruct privkey as [[|c key]|]; cbn [truthy];
      rewrite ?Hret, ?Hreq; cbn;
      [|match goal with
        | |- context [fst (serve ?s ?c)] =>
            destruct (fst (serve s c)) as [res3|detail]
        end; cbn|];
      split_and!; try done; try (by eexists);
      intros handle Hhandle; split_and!; try done;
      try (by apply Hnew); exists false; eauto.
Qed.



Lemma await_ret {B} (k : unit -> Async Node B) w :
  await Node (ret Node tt) k w
  = {| outcome := outcome (k tt w); calls := calls (k tt w);
       after := after (k tt w) |}.
Proof. done. Qed.

Lemma await_request {B} c (k : unit -> Async Node B) w :
  await Node
    (await Node (axios_request Node serve c) (fun _ => ret Node tt)) k w
  = let w' := {| node := snd (serve (node w) c); heap := heap w |} in
    match fst (serve (node w) c) with
    | Answered _ =>
        {| outcome := outcome (k tt w'); calls := c :: calls (k tt w');
           after := after (k tt w') |}
    | Failed detail =>
        {| outcome := Rejected (AxiosError detail); calls := [c];
           after := w' |}
    end.
Proof.
  rewrite (await_step _ _ _ _ _ _ (request_run c w)).
  by destruct (fst (serve _ _)).
Qed.

(** The run of [newInstance], read off the node's replies one after the
    other. *)
Lemma newInstance_run w httpUrl username password walletName privkey :
  let a := {| username := username; password := password |} in
  let listing := listwallets_request httpUrl a in
  let create := createwallet_request httpUrl a walletName in
  let object :=
    {| rpcRequestConfig := wallet_config httpUrl a walletName |} in
  let s1 := snd (serve (node w) listing) in
  newInstance Node serve httpUrl username password walletName privkey w
  = match listed (fst (serve (node w) listing)) walletName with
    | Rejected why =>
        {| outcome := Rejected why; calls := [listing];
           after := {| node := s1; heap := heap w |} |}
    | Resolved present =>
        let sent := if present then [listing] else [listing; create] in
        let s2 := if present then s1 else snd (serve s1 create) in
        match (if present then None
               else match fst (serve s1 create) with
                    | Failed detail => Some detail
                    | Answered _ => None
                    end) with
        | Some detail =>
            {| outcome := Rejected (AxiosError detail); calls := sent;
               after := {| node := s2; heap := heap w |} |}
        | None =>
            match (if truthy privkey then privkey else None) with
            | None =>
                {| outcome := Resolved (length (heap w)); calls := sent;
                   after := {| node := s2;
                               heap := (heap w ++ [object])%list |} |}
            | Some key =>
                let import :=
                  importprivkey_request httpUrl a walletName key in
                match fst (serve s2 import) with
                | Failed detail =>
                    {| outcome := Rejected (AxiosError detail);
                       calls := (sent ++ [import])%list;
                       after := {| node := snd (serve s2 import);
                                   heap := heap w |} |}
                | Answered _ =>
                    {| outcome := Resolved (length (heap w));
                       calls := (sent ++ [import])%list;
                       after := {| node := snd (serve s2 import);
                                   heap := (heap w ++ [object])%list |} |}
                end
            end
        end
    end.
Proof.
  intros a listing create object s1. subst listing create object s1.
  unfold newInstance, importprivkey_request, wallet_config. cbn zeta. fold a.
  rewrite (await_step _ _ _ _ _ _
             (listing_run w httpUrl a walletName)).
  destruct (listed _ walletName) as [present|why]; [|done].
  cbn [outcome calls after]. unfold axios_post.
  fold (createwallet_request httpUrl a walletName).
  destruct present; cbn [negb].
  - rewrite await_ret.
    destruct privkey as [[|c key]|]; cbn [truthy];
      rewrite ?await_ret, ?await_request; cbn; try done.
    match goal with
    | |- context [fst (serve ?s ?c)] => by destruct (fst (serve s c))
    end.
  - rewrite await_request. cbn zeta. cbn [node heap].
    destruct (fst (serve _ (createwallet_request httpUrl a walletName)))
      as [res2|detail]; [|done].
    destruct privkey as [[|c key]|]; cbn [truthy];
      rewrite ?await_ret, ?await_request; cbn; try done.
    match goal with
    | |- context [fst (serve ?s ?c)] => by destruct (fst (serve s c))
    end.
Qed.

(** *** The store of wallet objects under the calls *)

Lemma frames_settle {A} (o : Outcome A) : frames (settle Node o).
Proof. done. Qed.

Lemma frames_request c : frames (axios_request Node serve c).
Proof. intros w. by rewrite axios_request_run. Qed.

Lemma frames_this this : frames (this_rpcRequestConfig Node this).
Proof. intros w. unfold this_rpcRequestConfig. by destruct (heap w !! this). Qed.

Lemma frames_await {A B} (m : Async Node A) (k : A -> Async Node B) :
  frames m -> (forall a, frames (k a)) -> frames (await Node m k).
Proof.
  intros Hm Hk w. unfold await. specialize (Hm w).
  destruct (outcome (m w)) as [a|why]; cbn; [|done].
  by rewrite Hk.
Qed.

Lemma frames_assertNetwork this network :
  frames (assertNetwork Node serve this network).
Proof.
  unfold assertNetwork.
  repeat (apply frames_await; [|intros ?]);
    try apply frames_this; try apply frames_request;
    try apply frames_settle.
  destruct (negb _); apply frames_settle.
Qed.

Lemma frames_invoke this c : frames (invoke toBitcoin Node serve this c).
Proof.
  destruct c; cbn;
    unfold getBalance, getAddress, sendToAddress, broadcastTransaction,
      close, ret;
    repeat first
      [ apply frames_assertNetwork | apply frames_this
      | apply frames_request | apply frames_settle
      | apply frames_await; [|intros ?] ].
Qed.

Lemma sends_as_settle object this {A} (o : Outcome A) :
  sends_as object this (settle Node o).
Proof. intros w _. constructor. Qed.

Lemma sends_as_request object this c :
  same_endpoint (rpcRequestConfig object) c ->
  sends_as object this (axios_request Node serve c).
Proof. intros Hc w _. rewrite axios_request_run. cbn. by constructor. Qed.

Lemma sends_as_await object this {A B}
    (m : Async Node A) (k : A -> Async Node B) :
  frames m -> sends_as object this m ->
  (forall a, sends_as object this (k a)) ->
  sends_as object this (await Node m k).
Proof.
  intros Hframe Hm Hk w Hobj. unfold await.
  specialize (Hm w Hobj). specialize (Hframe w).
  destruct (outcome (m w)) as [a|why]; cbn; [|done].
  apply Forall_app. split; [done|]. apply Hk. by rewrite Hframe.
Qed.

(** Reading [this.rpcRequestConfig] gives the object's configuration. *)
Lemma sends_as_this object this {B}
    (k : AxiosRequestConfig -> Async Node B) :
  sends_as object this (k (rpcRequestConfig object)) ->
  sends_as object this (await Node (this_rpcRequestConfig Node this) k).
Proof.
  intros Hk w Hobj. unfold await, this_rpcRequestConfig.
  rewrite Hobj. cbn. by apply Hk.
Qed.

Lemma same_endpoint_with_data config body :
  same_endpoint config (with_data config body).
Proof. done. Qed.

Lemma sends_as_assertNetwork object this network :
  sends_as object this (assertNetwork Node serve this network).
Proof.
  unfold assertNetwork. apply sends_as_this.
  apply sends_as_await;
    [apply frames_request
    |apply sends_as_request, same_endpoint_with_data|intros res].
  apply sends_as_await;
    [apply frames_settle|apply sends_as_settle|intros result].
  apply sends_as_await;
    [apply frames_settle|apply sends_as_settle|intros chain].
  destruct (negb _); apply sends_as_settle.
Qed.

Lemma sends_as_invoke object this c :
  sends_as object this (invoke toBitcoin Node serve this c).
Proof.
  destruct c; cbn;
    unfold getBalance, getAddress, sendToAddress, broadcastTransaction,
      close, ret;
    repeat first
      [ apply sends_as_settle | apply sends_as_assertNetwork
      | apply sends_as_this
      | apply sends_as_request, same_endpoint_with_data
      | apply sends_as_await;
        [repeat first
           [ apply frames_assertNetwork | apply frames_this
           | apply frames_request | apply frames_settle
           | apply frames_await; [|intros ?] ]
        | |intros ?] ].
Qed.

Lemma session_heap this cs : forall w,
  heap (snd (session toBitcoin Node serve this cs w)) = heap w.
Proof.
  induction cs as [|c cs IH]; intros w; cbn; [done|].
  specialize (IH (after (invoke toBitcoin Node serve this c w))).
  destruct (session _ _ _ _ cs _) as [issued w']. cbn in *.
  by rewrite IH, frames_invoke.
Qed.

Lemma session_sends_as object this cs : forall w,
  heap w !! this = Some object ->
  Forall (same_endpoint (rpcRequestConfig object))
    (fst (session toBitcoin Node serve this cs w)).
Proof.
  induction cs as [|c cs IH]; intros w Hobj; cbn; [constructor|].
  specialize (IH (after (invoke toBitcoin Node serve this c w))).
  destruct (session _ _ _ _ cs _) as [issued w']. cbn in *.
  apply Forall_app. split; [by apply sends_as_invoke|].
  apply IH. by rewrite frames_invoke.
Qed.

(** *** The claims about construction *)

(** C4. When the [listwallets] result already has the wallet name in it,
    [newInstance] sends no [createwallet]; and on a node that keeps its
    wallets, once a first run of the construction protocol has returned,
    a second run for the same wallet name sends no [createwallet]. *)
Theorem newInstance_creates_wallet_once
    w httpUrl username password walletName privkey privkey' :
  let a := {| username := username; password := password |} in
  let first :=
    newInstance Node serve httpUrl username password walletName privkey w in
  let second :=
    newInstance Node serve httpUrl username password walletName privkey'
      (after first) in
  (lists_wallet serve (listwallets_request httpUrl a) walletName (node w) ->
   issues "createwallet" (calls first) = false)
  /\ (keeps_wallets serve ->
      forall handle,
        outcome first = Resolved handle ->
        issues "createwallet" (calls second) = false).
Proof.
  intros a first second. subst first second. split.
  - intros Hlisted.
    by apply (newInstance_facts w httpUrl username password walletName
                privkey).
  - intros [Hcreated Hkept] handle Hfirst.
    apply (newInstance_facts _ httpUrl username password walletName
             privkey').
    fold a.
    change (lists_wallet serve (listwallets_request httpUrl a) walletName
              (node (after (newInstance Node serve httpUrl username
                              password walletName privkey w)))).
    destruct (newInstance_facts w httpUrl username password walletName
                privkey) as (_ & _ & _ & _ & _ & Hdone).
    destruct (Hdone handle Hfirst)
      as (_ & _ & _ & exists_already & Hpresent & Hres & ->).
    clear Hdone Hfirst.
    fold a in Hpresent, Hres |- *.
    set (listing := listwallets_request httpUrl a) in *.
    set (create := createwallet_request httpUrl a walletName) in *.
    assert (Hs2 : lists_wallet serve listing walletName
                    (if exists_already
                     then snd (serve (node w) listing)
                     else snd (serve (snd (serve (node w) listing))
                                 create))).
    { destruct exists_already.
      - by apply (Hkept (node w) listing).
      - destruct (Hres eq_refl) as [res Hanswered].
        apply (Hcreated (snd (serve (node w) listing)) _ _ _ res).
        fold create. rewrite <- Hanswered. apply surjective_pairing. }
    destruct privkey as [[|c key]|]; cbn [truthy]; try done.
    by apply (Hkept _ (importprivkey_request httpUrl a walletName
                         (String c key)) _ _ _ ltac:(done) eq_refl Hs2).
Qed.

(** C5. [newInstance] sends its requests in the order of the
    construction plan: [listwallets] first, [createwallet] next and only
    when the wallet is not listed, [importprivkey] to the wallet's
    sub-path last and only when a key was supplied.  Each step waits for
    the one before it: when the listing fails nothing else is sent, when
    [createwallet] fails no [importprivkey] follows, and when
    [importprivkey] fails no handle is returned.  A handle is returned
    exactly when every request of the plan was answered, and its URL is
    the endpoint followed by [/wallet/<walletName>]. *)
Theorem newInstance_follows_construction_plan
    w httpUrl username password walletName privkey :
  let a := {| username := username; password := password |} in
  let r :=
    newInstance Node serve httpUrl username password walletName privkey w in
  let listing := listwallets_request httpUrl a in
  let create := createwallet_request httpUrl a walletName in
  let present := listed (fst (serve (node w) listing)) walletName in
  let plan := construction_plan httpUrl a walletName privkey present in
  let s1 := snd (serve (node w) listing) in
  calls r `prefix_of` plan
  /\ (exists rest, calls r = listing :: rest)
  /\ (issues "createwallet" (calls r) = true -> present = Resolved false)
  /\ (issues "importprivkey" (calls r) = true -> truthy privkey = true)
  /\ (forall handle,
         outcome r = Resolved handle ->
         calls r = plan
         /\ exists object,
             heap (after r) !! handle = Some object
             /\ url (rpcRequestConfig object)
                = httpUrl ++ "/wallet/" ++ walletName
             /\ method (rpcRequestConfig object) = "post"
             /\ auth (rpcRequestConfig object) = a)
  /\ (forall why,
         present = Rejected why ->
         outcome r = Rejected why /\ calls r = [listing])
  /\ (forall detail,
         present = Resolved false ->
         fst (serve s1 create) = Failed detail ->
         outcome r = Rejected (AxiosError detail)
         /\ calls r = [listing; create])
  /\ (forall exists_already key detail,
         present = Resolved exists_already ->
         (exists_already = false ->
          exists res, fst (serve s1 create) = Answered res) ->
         privkey = Some key -> key <> "" ->
         let s2 := if exists_already then s1 else snd (serve s1 create) in
         fst (serve s2 (importprivkey_request httpUrl a walletName key))
         = Failed detail ->
         outcome r = Rejected (AxiosError detail) /\ calls r = plan)
  /\ (forall exists_already,
         present = Resolved exists_already ->
         (exists_already = false ->
          exists res, fst (serve s1 create) = Answered res) ->
         let s2 := if exists_already then s1 else snd (serve s1 create) in
         (forall key,
             privkey = Some key -> key <> "" ->
             exists res,
               fst (serve s2 (importprivkey_request httpUrl a walletName key))
               = Answered res) ->
         outcome r = Resolved (length (heap w)) /\ calls r = plan).
Proof.
  intros a r listing create present plan s1.
  subst r listing create present plan s1.
  destruct (newInstance_facts w httpUrl username password walletName
              privkey) as (Hprefix & Hfirst & Hcreate & _ & Himport & Hdone).
  split_and!; try done.
  - intros Hissued. destruct (truthy privkey) eqn:Htruthy; [done|].
    by rewrite (Himport eq_refl) in Hissued.
  - intros handle Hhandle.
    destruct (Hdone handle Hhandle) as (Hplan & _ & Hobject & _).
    split; [done|]. by eexists.
  - intros why Hpresent. rewrite newInstance_run. cbn zeta. fold a.
    unfold construction_plan. by rewrite Hpresent.
  - intros detail Hpresent Hfailed. rewrite newInstance_run. cbn zeta.
    fold a. by rewrite Hpresent, Hfailed.
  - intros exists_already key detail Hpresent Hcreated -> Hkey s2 Hfailed.
    subst s2. rewrite newInstance_run. cbn zeta. fold a.
    unfold construction_plan. rewrite Hpresent.
    destruct key as [|c key]; [done|]. cbn [truthy].
    destruct exists_already; [|destruct (Hcreated eq_refl) as [res ->]];
      by rewrite Hfailed.
  - intros exists_already Hpresent Hcreated s2 Himported. subst s2.
    rewrite newInstance_run. cbn zeta. fold a.
    unfold construction_plan. rewrite Hpresent.
    destruct privkey as [[|c key]|]; cbn [truthy].
    + by destruct exists_already;
        [|destruct (Hcreated eq_refl) as [res ->]].
    + destruct exists_already;
        [|destruct (Hcreated eq_refl) as [res ->]];
        by destruct (Himported _ eq_refl ltac:(done)) as [res' ->].
    + by destruct exists_already;
        [|destruct (Hcreated eq_refl) as [res ->]].
Qed.

(** C10. When [privkey] is left out or is the empty string,
    [newInstance] sends no [importprivkey]; an [importprivkey] is sent
    only for a key that is a non-empty string. *)
Theorem newInstance_imports_only_truthy_key
    w httpUrl username password walletName privkey :
  let r :=
    newInstance Node serve httpUrl username password walletName privkey w in
  (privkey = None \/ privkey = Some "" ->
   issues "importprivkey" (calls r) = false)
  /\ (issues "importprivkey" (calls r) = true ->
      exists key, privkey = Some key /\ key <> "").
Proof.
  intros r. subst r.
  destruct (newInstance_facts w httpUrl username password walletName
              privkey) as (_ & _ & _ & _ & Himport & _).
  split.
  - intros [-> | ->]; by apply Himport.
  - intros Hissued. destruct privkey as [[|c key]|].
    + by rewrite (Himport eq_refl) in Hissued.
    + by eexists.
    + by rewrite (Himport eq_refl) in Hissued.
Qed.

(** *** The claims about the handle *)

(** C6. [getFee] returns the string ["150"] for every handle; it takes
    no world and so reads no state and sends nothing, and a caller's run
    of it issues no request and leaves the world as it was. *)
Theorem getFee_is_constant w this :
  getFee this = "150"
  /\ invoke toBitcoin Node serve this GetFee w
     = {| outcome := Resolved (Str "150"); calls := []; after := w |}.
Proof. done. Qed.

(** C8. No call on a handle changes the stored request configuration,
    whether the call succeeds or fails: the store of wallet objects after
    a call, and after any sequence of calls, is the store before it; so
    the handle still holds its object, and every request of the sequence
    goes to that object's URL with its HTTP method and credentials. *)
Theorem calls_leave_handle_unchanged w this c cs :
  heap (after (invoke toBitcoin Node serve this c w)) = heap w
  /\ heap (snd (session toBitcoin Node serve this cs w)) = heap w
  /\ forall object,
      heap w !! this = Some object ->
      heap (after (invoke toBitcoin Node serve this c w)) !! this
      = Some object
      /\ heap (snd (session toBitcoin Node serve this cs w)) !! this
         = Some object
      /\ Forall (same_endpoint (rpcRequestConfig object))
           (fst (session toBitcoin Node serve this cs w)).
Proof.
  split_and!.
  - apply frames_invoke.
  - apply session_heap.
  - intros object Hobj. rewrite frames_invoke, session_heap.
    split_and!; try done. by apply session_sends_as.
Qed.

End Runs.

(** ** The scripted node keeps its wallets *)

Lemma sim_includes_listed (names : list string) (name : string) :
  existsb (fun item => strict_eq_string item name) (map Str names) = true
  <-> In name names.
Proof.
  rewrite existsb_exists. split.
  - intros (item & Hin & Heq). apply in_map_iff in Hin as (n & <- & Hn).
    cbn in Heq. apply String.eqb_eq in Heq. by subst.
  - intros Hin. exists (Str name). split; [by apply in_map|].
    cbn. apply String.eqb_refl.
Qed.

Lemma sim_serve_grows (s : Sim.state) (c : AxiosRequestConfig) :
  exists extra,
    Sim.wallets (snd (Sim.serve s c)) = (Sim.wallets s ++ extra)%list.
Proof.
  unfold Sim.serve. destruct (data c) as [body|]; cbn.
  2:{ exists []. by rewrite app_nil_r. }
  destruct (String.eqb (rpc_method body) "listwallets"); cbn.
  { exists []. by rewrite app_nil_r. }
  destruct (String.eqb (rpc_method body) "createwallet"); cbn.
  { destruct (params body) as [[|[] [|]]|]; cbn; try by eauto;
      exists []; by rewrite app_nil_r. }
  exists []. rewrite app_nil_r.
  by repeat (destruct (String.eqb (rpc_method body) _)).
Qed.

Lemma sim_listed_grows (s s' : Sim.state) (listing : AxiosRequestConfig)
    (name : string) :
  (exists extra, Sim.wallets s' = (Sim.wallets s ++ extra)%list) ->
  lists_wallet Sim.serve listing name s ->
  lists_wallet Sim.serve listing name s'.
Proof.
  intros [extra Hgrows]. unfold lists_wallet, Sim.serve.
  destruct (data listing) as [body|]; cbn; [|done].
  destruct (String.eqb (rpc_method body) "listwallets"); cbn.
  { intros [= Hin]. f_equal. apply sim_includes_listed.
    apply sim_includes_listed in Hin. rewrite Hgrows. apply in_app_iff.
    by left. }
  destruct (String.eqb (rpc_method body) "createwallet"); cbn.
  { by destruct (params body) as [[|[] [|]]|]. }
  by repeat (destruct (String.eqb (rpc_method body) _)).
Qed.

Lemma sim_keeps_wallets : keeps_wallets Sim.serve.
Proof.
  split.
  - intros s httpUrl a walletName res s' [= _ <-].
    unfold lists_wallet. cbn. f_equal. apply sim_includes_listed.
    apply in_app_iff. right. by left.
  - intros s c s' listing walletName _ <-.
    apply sim_listed_grows, sim_serve_grows.
Qed.

(** ** The statements at concrete inputs *)

(** [send_to_address("addr1", 50000000, "testnet")] on a node reporting
    chain ["bitcoin"]: the check is the only request. *)
Lemma network_check_precedes_funds_moving_witness :
  let w := Sim.world ["c"] (Str "bitcoin") [Sim.handle] in
  heap w !! 0 = Some Sim.handle
  /\ calls (sendToAddress Sim.toBitcoin Sim.state Sim.serve 0 "addr1"
              50000000%float testnet w)
     = [getblockchaininfo_request (rpcRequestConfig Sim.handle)].
Proof.
  intros w. split; [reflexivity|].
  destruct (network_check_precedes_funds_moving Sim.toBitcoin Sim.serve w 0
              Sim.handle "addr1" 50000000%float "0200" testnet eq_refl)
    as (_ & _ & Hfail & _).
  apply Hfail. vm_compute. discriminate.
Defined.

Lemma assertNetwork_rejects_iff_chain_differs_witness :
  let w := Sim.world ["c"] (Str "regtest") [Sim.handle] in
  heap w !! 0 = Some Sim.handle
  /\ outcome (assertNetwork Sim.state Sim.serve 0 regtest w) = Resolved tt
  /\ outcome (assertNetwork Sim.state Sim.serve 0 bitcoin w)
     = Rejected (Message (mismatch_message bitcoin)).
Proof.
  intros w.
  assert (Hchain : reports_chain
                     (fst (Sim.serve (node w)
                             (getblockchaininfo_request
                                (rpcRequestConfig Sim.handle))))
                     (Str "regtest")).
  { eexists _, _. split_and!; reflexivity. }
  split_and!; [reflexivity| |].
  - destruct (assertNetwork_rejects_iff_chain_differs Sim.toBitcoin
                Sim.serve w 0 Sim.handle "addr1" 1%float "0200" regtest
                (Str "regtest") eq_refl Hchain) as (_ & _ & Hsame).
    by apply Hsame.
  - destruct (assertNetwork_rejects_iff_chain_differs Sim.toBitcoin
                Sim.serve w 0 Sim.handle "addr1" 1%float "0200" bitcoin
                (Str "regtest") eq_refl Hchain) as (Hiff & _).
    apply Hiff. discriminate.
Defined.

(** The scenario of the specification: rejection, and no transfer. *)
Lemma mismatch_rejected_naming_expected_network_witness :
  let w := Sim.world ["c"] (Str "bitcoin") [Sim.handle] in
  exists text,
    outcome (sendToAddress Sim.toBitcoin Sim.state Sim.serve 0 "addr1"
               50000000%float testnet w)
    = Rejected (Message text)
    /\ string_includes "testnet" text = true
    /\ issues "sendtoaddress"
         (calls (sendToAddress Sim.toBitcoin Sim.state Sim.serve 0 "addr1"
                   50000000%float testnet w))
       = false.
Proof.
  intros w.
  assert (Hchain : reports_chain
                     (fst (Sim.serve (node w)
                             (getblockchaininfo_request
                                (rpcRequestConfig Sim.handle))))
                     (Str "bitcoin")).
  { eexists _, _. split_and!; reflexivity. }
  destruct (mismatch_rejected_naming_expected_network Sim.toBitcoin Sim.serve
              w 0 Sim.handle "addr1" 50000000%float "0200" testnet
              (Str "bitcoin") eq_refl Hchain ltac:(discriminate))
    as (text & Hs & _ & Hnames & Hnone & _).
  exists text. split_and!; assumption.
Defined.

(** C9, as stated, fails: a node on the test chain that reports ["test"]
    is refused for ["testnet"], and the message, which names ["testnet"],
    has the reported value ["test"] in it. *)
Lemma mismatch_message_contains_reported_chain :
  let w := Sim.world ["c"] (Str "test") [Sim.handle] in
  reports_chain
    (fst (Sim.serve (node w)
            (getblockchaininfo_request (rpcRequestConfig Sim.handle))))
    (Str "test")
  /\ exists text,
      outcome (assertNetwork Sim.state Sim.serve 0 testnet w)
      = Rejected (Message text)
      /\ string_includes "test" text = true.
Proof.
  intros w. split.
  - eexists _, _. split_and!; reflexivity.
  - eexists. split; reflexivity.
Qed.

Lemma mismatch_message_interpolates_requested_network_witness :
  let w := Sim.world ["c"] (Str "regtest") [Sim.handle] in
  outcome (assertNetwork Sim.state Sim.serve 0 testnet w)
  = Rejected
      (Message
         "This wallet is only connected to the testnet network and cannot perform actions on the testnet network")
  /\ string_includes "regtest" (mismatch_message testnet) = false.
Proof.
  intros w.
  assert (Hchain : reports_chain
                     (fst (Sim.serve (node w)
                             (getblockchaininfo_request
                                (rpcRequestConfig Sim.handle))))
                     (Str "regtest")).
  { eexists _, _. split_and!; reflexivity. }
  destruct (mismatch_message_interpolates_requested_network Sim.serve w 0
              Sim.handle testnet (Str "regtest") eq_refl Hchain
              ltac:(discriminate)) as [Hmessage Hother].
  split; [exact Hmessage|]. by apply (Hother regtest).
Defined.

(** The scenario of the specification, and the second run after it: on a
    node with wallets ["a"] and ["b"], constructing ["c"] creates it once. *)
Lemma newInstance_creates_wallet_once_witness :
  let w := Sim.world ["a"; "b"] (Str "regtest") [] in
  let first :=
    newInstance Sim.state Sim.serve "http://localhost:18443" "alice" "secret"
      "c" None w in
  outcome first = Resolved 0
  /\ issues "createwallet" (calls first) = true
  /\ issues "createwallet"
       (calls (newInstance Sim.state Sim.serve "http://localhost:18443"
                 "alice" "secret" "c" (Some "cKey") (after first)))
     = false
  /\ issues "createwallet"
       (calls (newInstance Sim.state Sim.serve "http://localhost:18443"
                 "alice" "secret" "b" None w))
     = false.
Proof.
  intros w first. split_and!; [reflexivity|reflexivity| |].
  - destruct (newInstance_creates_wallet_once Sim.serve w
                "http://localhost:18443" "alice" "secret" "c" None
                (Some "cKey")) as [_ Hsecond].
    apply (Hsecond sim_keeps_wallets 0). reflexivity.
  - destruct (newInstance_creates_wallet_once Sim.serve w
                "http://localhost:18443" "alice" "secret" "b" None None)
      as [Hlisted _].
    apply Hlisted. reflexivity.
Defined.

Lemma newInstance_follows_construction_plan_witness :
  let w := Sim.world ["a"; "b"] (Str "regtest") [] in
  let r :=
    newInstance Sim.state Sim.serve "http://localhost:18443" "alice" "secret"
      "c" (Some "cKey") w in
  map method_of (calls r) = ["listwallets"; "createwallet"; "importprivkey"]
  /\ exists object,
      heap (after r) !! 0 = Some object
      /\ url (rpcRequestConfig object) = "http://localhost:18443/wallet/c".
Proof.
  intros w r.
  destruct (newInstance_follows_construction_plan Sim.serve w
              "http://localhost:18443" "alice" "secret" "c" (Some "cKey"))
    as (_ & _ & _ & _ & Hdone & _).
  destruct (Hdone 0 eq_refl) as (Hplan & object & Hobject & Hurl & _).
  split.
  - subst r. rewrite Hplan. reflexivity.
  - by exists object.
Defined.

Lemma newInstance_imports_only_truthy_key_witness :
  issues "importprivkey"
    (calls (newInstance Sim.state Sim.serve "http://localhost:18443" "alice"
              "secret" "c" (Some "")
              (Sim.world ["a"; "b"] (Str "regtest") [])))
  = false.
Proof.
  destruct (newInstance_imports_only_truthy_key Sim.serve
              (Sim.world ["a"; "b"] (Str "regtest") [])
              "http://localhost:18443" "alice" "secret" "c" (Some ""))
    as [Hnone _].
  apply Hnone. by right.
Defined.

(** A failed call, then more calls on the same handle. *)
Lemma calls_leave_handle_unchanged_witness :
  let w := Sim.world ["c"] (Str "bitcoin") [Sim.handle] in
  let cs := [SendToAddress "addr1" 50000000%float testnet; GetBalance;
             BroadcastTransaction "0200" bitcoin; Close] in
  heap (snd (session Sim.toBitcoin Sim.state Sim.serve 0 cs w)) !! 0
  = Some Sim.handle
  /\ Forall (same_endpoint (rpcRequestConfig Sim.handle))
       (fst (session Sim.toBitcoin Sim.state Sim.serve 0 cs w)).
Proof.
  intros w cs.
  destruct (calls_leave_handle_unchanged Sim.toBitcoin Sim.serve w 0 GetFee
              cs) as (_ & _ & Hlive).
  destruct (Hlive Sim.handle eq_refl) as (_ & Hstill & Hsame).
  by split.
Defined.

(** ** The remaining operations, and the edges of the ones above *)

Section Coverage.

Context (toBitcoin : number -> Outcome number).
Context {Node : Type} (serve : Node -> AxiosRequestConfig -> Reply * Node).

Implicit Types (w : World Node) (this : ref) (object : BitcoindWallet).

(** A call that reads the handle's configuration, sends one request and
    hands back [res.data.result]. *)
Lemma result_call_run w this object body :
  heap w !! this = Some object ->
  let c := with_data (rpcRequestConfig object) body in
  await Node (this_rpcRequestConfig Node this)
    (fun config =>
       await Node (axios_request Node serve (with_data config body))
         (fun res => settle Node (get_prop (response_data res) "result"))) w
  = {| outcome := result_of_reply (fst (serve (node w) c));
       calls := [c];
       after := {| node := snd (serve (node w) c); heap := heap w |} |}.
Proof.
  intros Hobj c. subst c. unfold await, this_rpcRequestConfig, settle.
  rewrite Hobj. cbn. rewrite axios_request_run. cbn.
  by destruct (fst (serve _ _)).
Qed.

Lemma close_run w this object :
  heap w !! this = Some object ->
  let c := unloadwallet_request (rpcRequestConfig object) in
  close Node serve this w
  = {| outcome := match fst (serve (node w) c) with
                  | Answered _ => Resolved tt
                  | Failed detail => Rejected (AxiosError detail)
                  end;
       calls := [c];
       after := {| node := snd (serve (node w) c); heap := heap w |} |}.
Proof.
  intros Hobj c. subst c.
  unfold close, await, this_rpcRequestConfig, settle, ret.
  rewrite Hobj. cbn. rewrite axios_request_run. cbn.
  by destruct (fst (serve _ _)).
Qed.

(** X1. [getBalance] and [getAddress] send exactly one request each, to
    the handle's endpoint, and no network check; each resolves to the
    [result] field of the reply, and a transport failure is handed on
    unchanged. *)
Theorem balance_and_address_send_one_request w this object :
  heap w !! this = Some object ->
  let config := rpcRequestConfig object in
  let balance := getBalance Node serve this w in
  let address := getAddress Node serve this w in
  calls balance = [getbalance_request config]
  /\ calls address = [getnewaddress_request config]
  /\ outcome balance
     = result_of_reply (fst (serve (node w) (getbalance_request config)))
  /\ outcome address
     = result_of_reply (fst (serve (node w) (getnewaddress_request config)))
  /\ issues "getblockchaininfo" (calls balance) = false
  /\ issues "getblockchaininfo" (calls address) = false.
Proof.
  intros Hobj config balance address. subst balance address.
  unfold getBalance, getAddress.
  by rewrite !(result_call_run _ _ _ _ Hobj).
Qed.

(** X2. [close] sends exactly one [unloadwallet] request to the handle's
    endpoint; it resolves whatever the node answers, since the answer is
    not looked at, and rejects only with the transport's error.  The
    handle's object stays in the store. *)
Theorem close_sends_one_unloadwallet w this object :
  heap w !! this = Some object ->
  let c := unloadwallet_request (rpcRequestConfig object) in
  let r := close Node serve this w in
  calls r = [c]
  /\ (forall res, fst (serve (node w) c) = Answered res ->
      outcome r = Resolved tt)
  /\ (forall detail, fst (serve (node w) c) = Failed detail ->
      outcome r = Rejected (AxiosError detail))
  /\ heap (after r) !! this = Some object.
Proof.
  intros Hobj c r. subst c r. rewrite (close_run _ _ _ Hobj). cbn.
  split_and!; try done; by intros ? ->.
Qed.

Lemma reports_chain_functional reply chain chain' :
  reports_chain reply chain -> reports_chain reply chain' -> chain = chain'.
Proof.
  intros (res & result & -> & Hres & Hchain)
    (res' & result' & [= <-] & Hres' & Hchain').
  congruence.
Qed.

Lemma check_outcome_passes reply network :
  check_outcome reply network = Resolved tt
  <-> reports_chain reply (Str (network_string network)).
Proof.
  split.
  - unfold check_outcome. destruct reply as [res|detail]; [|done].
    destruct (get_prop (response_data res) "result") as [result|] eqn:Hres;
      [|done].
    destruct (get_prop result "chain") as [chain|] eqn:Hchain; [|done].
    destruct (strict_eq_string chain (network_string network)) eqn:Heq;
      [|done].
    intros _. apply strict_eq_string_true in Heq as ->. by eexists _, _.
  - intros Hchain. rewrite (check_outcome_reported _ _ _ Hchain). cbn.
    by rewrite String.eqb_refl.
Qed.

Lemma network_string_inj n m : network_string n = network_string m -> n = m.
Proof. by destruct n, m. Qed.

(** X3. The network check passes exactly when the node answers and the
    [chain] field of the result is the string of the requested network: a
    transport failure, a reply without a result, a result without a
    [chain], and a [chain] that is not a string all fail it. *)
Theorem assertNetwork_passes_iff w this object network :
  heap w !! this = Some object ->
  outcome (assertNetwork Node serve this network w) = Resolved tt
  <-> reports_chain
        (fst (serve (node w)
                (getblockchaininfo_request (rpcRequestConfig object))))
        (Str (network_string network)).
Proof.
  intros Hobj. rewrite (assertNetwork_run _ _ _ _ network Hobj). cbn.
  apply check_outcome_passes.
Qed.

(** X4. [broadcastTransaction] sends [sendrawtransaction] exactly when
    the check passes; then it has sent the check and that request, in this
    order, and it resolves to the [result] field of the second reply or
    rejects with the second request's transport error. *)
Theorem broadcastTransaction_sends_iff_check_passes
    w this object transactionHex network :
  heap w !! this = Some object ->
  let config := rpcRequestConfig object in
  let check := getblockchaininfo_request config in
  let send := sendrawtransaction_request config transactionHex in
  let b := broadcastTransaction Node serve this transactionHex network w in
  let passes :=
    reports_chain (fst (serve (node w) check))
      (Str (network_string network)) in
  (issues "sendrawtransaction" (calls b) = true <-> passes)
  /\ (passes ->
      calls b = [check; send]
      /\ outcome b
         = result_of_reply (fst (serve (snd (serve (node w) check)) send))).
Proof.
  intros Hobj config check send b passes. subst b passes.
  rewrite (broadcastTransaction_run _ _ _ _ transactionHex network Hobj).
  rewrite (assertNetwork_run _ _ _ _ network Hobj). cbn.
  fold config check send.
  rewrite <- (check_outcome_passes (fst (serve (node w) check)) network).
  destruct (check_outcome _ _) as [[]|why]; cbn.
  - rewrite axios_request_run. cbn. split; [done|]. intros _.
    split; [done|]. by destruct (fst (serve _ send)).
  - split; [|done]. split; done.
Qed.

(** X5. [sendToAddress] sends [sendtoaddress] exactly when the check
    passes and [toBitcoin] returns an amount; the parameters are the
    address and that amount, in this order.  When [toBitcoin] throws after
    a check that passed, the call rejects with what was thrown and the
    check is the only request sent. *)
Theorem sendToAddress_sends_iff_check_passes_and_amount_converts
    w this object address satoshis network :
  heap w !! this = Some object ->
  let config := rpcRequestConfig object in
  let check := getblockchaininfo_request config in
  let s :=
    sendToAddress toBitcoin Node serve this address satoshis network w in
  let passes :=
    reports_chain (fst (serve (node w) check))
      (Str (network_string network)) in
  (issues "sendtoaddress" (calls s) = true
   <-> passes /\ exists amount, toBitcoin satoshis = Resolved amount)
  /\ (forall amount,
         passes -> toBitcoin satoshis = Resolved amount ->
         let send := sendtoaddress_request config address amount in
         calls s = [check; send]
         /\ data send
            = Some {| jsonrpc := "1.0"; rpc_method := "sendtoaddress";
                      params := Some [Str address; Num amount] |}
         /\ outcome s
            = result_of_reply
                (fst (serve (snd (serve (node w) check)) send)))
  /\ (forall why,
         passes -> toBitcoin satoshis = Rejected why ->
         outcome s = Rejected why /\ calls s = [check]).
Proof.
  intros Hobj config check s passes. subst s.
  rewrite (sendToAddress_run _ _ _ _ _ address satoshis network Hobj).
  rewrite (assertNetwork_run _ _ _ _ network Hobj). cbn.
  fold config check.
  pose proof (check_outcome_passes (fst (serve (node w) check)) network)
    as Hpass.
  fold passes in Hpass.
  destruct (check_outcome _ _) as [[]|why]; cbn.
  - destruct (toBitcoin satoshis) as [amount|why]; cbn.
    + rewrite axios_request_run. cbn. split_and!.
      * split; [intros _; split; [by apply Hpass|eauto]|done].
      * intros amount' _ [= <-]. split_and!; try done.
        by destruct (fst (serve _ (sendtoaddress_request _ _ _))).
      * done.
    + split_and!; [|done|by intros why' _ [= <-]].
      split; [done|]. by intros [_ [amount ?]].
  - assert (Hnot : ~ passes) by (intros Hp; by apply Hpass in Hp).
    split_and!.
    + destruct (toBitcoin satoshis); cbn; (split; [done|]); by intros [? _].
    + by intros amount Hp.
    + by intros why' Hp.
Qed.

(** X6. The check tells the three networks apart: when the node's answer
    to the check names the network [actual], [broadcastTransaction] sends
    its transaction exactly when the requested network is [actual], and
    [sendToAddress] sends a transfer only in that case.  The check and the
    send are two requests; this says nothing of the chain the node is on
    when it serves the second. *)
Theorem funds_request_needs_requested_network_at_check
    w this object address satoshis transactionHex requested actual :
  heap w !! this = Some object ->
  reports_chain
    (fst (serve (node w)
            (getblockchaininfo_request (rpcRequestConfig object))))
    (Str (network_string actual)) ->
  (issues "sendrawtransaction"
     (calls (broadcastTransaction Node serve this transactionHex requested w))
   = true
   <-> requested = actual)
  /\ (issues "sendtoaddress"
        (calls (sendToAddress toBitcoin Node serve this address satoshis
                  requested w))
      = true
      -> requested = actual).
Proof.
  intros Hobj Hactual.
  assert (Hpass : check_outcome
                    (fst (serve (node w)
                            (getblockchaininfo_request
                               (rpcRequestConfig object)))) requested
                  = Resolved tt
                  <-> requested = actual).
  { rewrite check_outcome_passes. split.
    - intros Hrequested. apply network_string_inj.
      by injection (reports_chain_functional _ _ _ Hrequested Hactual).
    - by intros ->. }
  rewrite (broadcastTransaction_run _ _ _ _ transactionHex requested Hobj),
    (sendToAddress_run _ _ _ _ _ address satoshis requested Hobj).
  rewrite (assertNetwork_run _ _ _ _ requested Hobj). cbn.
  destruct (check_outcome _ _) as [[]|why]; cbn.
  - rewrite axios_request_run. cbn. split; [|intros _; by apply Hpass].
    split; [intros _; by apply Hpass|done].
  - split.
    + split; [done|]. intros Heq. by apply Hpass in Heq.
    + by destruct (toBitcoin satoshis).
Qed.

(** *** The amount of a transfer *)



(** *** Construction *)

(** X7. [newInstance] makes a wallet object only when it succeeds: a
    rejected run leaves the store as it was; a successful one returns a
    reference that was not in use, adds exactly the new object, and leaves
    every existing handle's object in place. *)
Theorem newInstance_allocates_only_on_success
    w httpUrl username password walletName privkey :
  let a := {| username := username; password := password |} in
  let r :=
    newInstance Node serve httpUrl username password walletName privkey w in
  (forall why, outcome r = Rejected why -> heap (after r) = heap w)
  /\ (forall handle,
         outcome r = Resolved handle ->
         handle = length (heap w)
         /\ heap w !! handle = None
         /\ heap (after r)
            = (heap w
               ++ [{| rpcRequestConfig :=
                        wallet_config httpUrl a walletName |}])%list
         /\ forall other object,
             heap w !! other = Some object ->
             heap (after r) !! other = Some object).
Proof.
  intros a r. subst r. rewrite newInstance_run. cbn zeta. fold a.
  assert (Hfresh : forall handle,
             @Resolved ref (length (heap w)) = Resolved handle ->
             handle = length (heap w) /\ heap w !! handle = None).
  { intros handle [= <-]. split; [done|]. by apply lookup_ge_None_2. }
  repeat case_match; cbn; (split; [done|]); intros handle Hhandle;
    try done; destruct (Hfresh handle Hhandle) as [-> Hnone];
    split_and!; try done; intros other object Hother;
    by apply lookup_app_l_Some.
Qed.

Lemma includes_array items s :
  existsb (fun item => strict_eq_string item s) items = true
  <-> In (Str s) items.
Proof.
  rewrite existsb_exists. split.
  - intros (item & Hin & Heq). by apply strict_eq_string_true in Heq as ->.
  - intros Hin. exists (Str s). split; [done|].
    by apply strict_eq_string_true.
Qed.

(** X8. When [listwallets] answers with a list, [createwallet] is sent
    exactly when the wallet name is not an element of it, and it is then
    the second request, right after [listwallets]. *)
Theorem createwallet_sent_iff_name_not_listed
    w httpUrl username password walletName privkey res items :
  let a := {| username := username; password := password |} in
  let listing := listwallets_request httpUrl a in
  let create := createwallet_request httpUrl a walletName in
  let r :=
    newInstance Node serve httpUrl username password walletName privkey w in
  fst (serve (node w) listing) = Answered res ->
  get_prop (response_data res) "result" = Resolved (Arr items) ->
  (issues "createwallet" (calls r) = true <-> ~ In (Str walletName) items)
  /\ (~ In (Str walletName) items ->
      exists rest, calls r = listing :: create :: rest).
Proof.
  intros a listing create r Hanswered Hresult. subst r.
  rewrite newInstance_run. cbn zeta. fold a listing create.
  rewrite Hanswered. cbn [listed]. rewrite Hresult. cbn [includes].
  pose proof (includes_array items walletName) as Hin.
  destruct (existsb _ items).
  - assert (In (Str walletName) items) by by apply Hin.
    repeat case_match; cbn; (split; [split|]); done.
  - assert (~ In (Str walletName) items)
      by (intros Hx; by apply Hin in Hx).
    repeat case_match; cbn; (split; [split|]); try done;
      intros _; by eexists.
Qed.

(** X9. A request that fails ends the construction.  When [createwallet]
    fails, [newInstance] rejects with that error after two requests and
    sends no [importprivkey], key or no key.  When [importprivkey] fails
    after the wallet was created, it rejects with that error; the
    [createwallet] request stays sent and nothing is sent to undo it.  In
    both cases no wallet object is made. *)
Theorem newInstance_stops_at_failed_request
    w httpUrl username password walletName privkey detail :
  let a := {| username := username; password := password |} in
  let listing := listwallets_request httpUrl a in
  let create := createwallet_request httpUrl a walletName in
  let r :=
    newInstance Node serve httpUrl username password walletName privkey w in
  let s1 := snd (serve (node w) listing) in
  listed (fst (serve (node w) listing)) walletName = Resolved false ->
  (fst (serve s1 create) = Failed detail ->
   outcome r = Rejected (AxiosError detail)
   /\ calls r = [listing; create]
   /\ heap (after r) = heap w)
  /\ (forall res key,
         fst (serve s1 create) = Answered res ->
         privkey = Some key -> key <> "" ->
         let import := importprivkey_request httpUrl a walletName key in
         fst (serve (snd (serve s1 create)) import) = Failed detail ->
         outcome r = Rejected (AxiosError detail)
         /\ calls r = [listing; create; import]
         /\ heap (after r) = heap w).
Proof.
  intros a listing create r s1 Habsent. subst r.
  rewrite newInstance_run. cbn zeta. fold a listing create s1.
  rewrite Habsent. split.
  - by intros ->.
  - intros res key -> -> Hkey. cbn zeta. intros Himport.
    destruct key as [|c key]; [done|]. cbn. fold a. by rewrite Himport.
Qed.

(** X10. When [listwallets] is answered but the body has no list in its
    [result] (a missing result, [null], a number, an object, or no JSON
    body at all), [newInstance] rejects with a [TypeError] after that one
    request: nothing is created on the node and no wallet object is
    made. *)
Theorem newInstance_rejects_malformed_listing
    w httpUrl username password walletName privkey res :
  let a := {| username := username; password := password |} in
  let listing := listwallets_request httpUrl a in
  let r :=
    newInstance Node serve httpUrl username password walletName privkey w in
  fst (serve (node w) listing) = Answered res ->
  (forall items,
      get_prop (response_data res) "result" <> Resolved (Arr items)) ->
  (forall text,
      get_prop (response_data res) "result" <> Resolved (Str text)) ->
  outcome r = Rejected TypeError
  /\ calls r = [listing]
  /\ heap (after r) = heap w.
Proof.
  intros a listing r Hanswered Hnot_array Hnot_string. subst r.
  rewrite newInstance_run. cbn zeta. fold a listing.
  rewrite Hanswered. cbn [listed].
  destruct (response_data res) as [| |b|n|s|elements|fields] eqn:Hdata;
    cbn; try done.
  cbn in Hnot_array, Hnot_string.
  destruct (own_prop "result" fields) as [| |b|n|text|items|inner]; cbn;
    try done.
  - by destruct (Hnot_string text).
  - by destruct (Hnot_array items).
Qed.

(** X11. [newInstance] calls no method but [listwallets], [createwallet]
    and [importprivkey], and none of them twice: it never repeats a
    request, never unloads a wallet and never moves funds. *)
Theorem newInstance_sends_each_request_at_most_once
    w httpUrl username password walletName privkey :
  let r :=
    newInstance Node serve httpUrl username password walletName privkey w in
  Forall (fun c =>
            In (method_of c) ["listwallets"; "createwallet"; "importprivkey"])
    (calls r)
  /\ NoDup (map method_of (calls r)).
Proof.
  intros r. subst r. rewrite newInstance_run. cbn zeta.
  repeat case_match; cbn; split;
    try (repeat constructor; cbn; tauto);
    apply (bool_decide_unpack _); by vm_compute.
Qed.

(** X12. A handle returned by [newInstance] sends every request of every
    later call to the endpoint followed by [/wallet/<walletName>], by
    POST, with the credentials given at construction. *)
Theorem constructed_handle_calls_wallet_path
    w httpUrl username password walletName privkey handle cs :
  let a := {| username := username; password := password |} in
  let r :=
    newInstance Node serve httpUrl username password walletName privkey w in
  outcome r = Resolved handle ->
  Forall (fun c =>
            url c = httpUrl ++ "/wallet/" ++ walletName
            /\ method c = "post" /\ auth c = a)
    (fst (session toBitcoin Node serve handle cs (after r))).
Proof.
  intros a r Hhandle.
  destruct (newInstance_facts serve w httpUrl username password walletName
              privkey) as (_ & _ & _ & _ & _ & Hdone).
  destruct (Hdone handle Hhandle) as (_ & _ & Hobject & _).
  apply (session_sends_as toBitcoin serve _ handle cs _ Hobject).
Qed.

(** *** The shape of the requests *)

Lemma all_calls_settle P {A} (o : Outcome A) : all_calls P (settle Node o).
Proof. intros w. constructor. Qed.

Lemma all_calls_request (P : AxiosRequestConfig -> Prop) c :
  P c -> all_calls P (axios_request Node serve c).
Proof. intros Hc w. rewrite axios_request_run. cbn. by constructor. Qed.

Lemma all_calls_this P this : all_calls P (this_rpcRequestConfig Node this).
Proof. intros w. unfold this_rpcRequestConfig. constructor. Qed.

Lemma all_calls_await P {A B} (m : Async Node A) (k : A -> Async Node B) :
  all_calls P m -> (forall a, all_calls P (k a)) ->
  all_calls P (await Node m k).
Proof.
  intros Hm Hk w. unfold await. specialize (Hm w).
  destruct (outcome (m w)) as [a|why]; cbn; [|done].
  apply Forall_app. split; [done|]. apply Hk.
Qed.

Lemma jsonrpc_call_with_data config m arguments :
  jsonrpc_call
    (with_data config
       {| jsonrpc := "1.0"; rpc_method := m; params := Some arguments |}).
Proof. by eexists _, _. Qed.

Lemma all_calls_assertNetwork this network :
  all_calls jsonrpc_call (assertNetwork Node serve this network).
Proof.
  unfold assertNetwork.
  apply all_calls_await; [apply all_calls_this|intros config].
  apply all_calls_await;
    [apply all_calls_request, jsonrpc_call_with_data|intros res].
  apply all_calls_await; [apply all_calls_settle|intros result].
  apply all_calls_await; [apply all_calls_settle|intros chain].
  destruct (negb _); apply all_calls_settle.
Qed.

Lemma all_calls_invoke this c :
  all_calls jsonrpc_call (invoke toBitcoin Node serve this c).
Proof.
  destruct c; cbn;
    unfold getBalance, getAddress, sendToAddress, broadcastTransaction,
      close, ret;
    repeat first
      [ apply all_calls_assertNetwork | apply all_calls_this
      | apply all_calls_request, jsonrpc_call_with_data
      | apply all_calls_settle
      | apply all_calls_await; [|intros ?] ].
Qed.

(** X13. Every request a handle sends, in any sequence of calls and
    whatever their outcomes, carries a JSON-RPC body with version ["1.0"]
    and a [params] array. *)
Theorem handle_requests_are_jsonrpc_calls this cs : forall w,
  Forall jsonrpc_call (fst (session toBitcoin Node serve this cs w)).
Proof.
  induction cs as [|c cs IH]; intros w; cbn; [constructor|].
  specialize (IH (after (invoke toBitcoin Node serve this c w))).
  destruct (session _ _ _ _ cs _) as [issued w']. cbn in *.
  apply Forall_app. split; [apply all_calls_invoke|done].
Qed.

(** *** The existence check *)

Lemma prefix_app needle haystack :
  String.prefix needle haystack = true
  <-> exists rest, haystack = needle ++ rest.
Proof.
  revert haystack.
  induction needle as [|a needle IH]; intros [|b haystack]; cbn.
  - split; [by eexists|done].
  - split; [by eexists|done].
  - split; [done|]. by intros [rest ?].
  - destruct (ascii_dec a b) as [<-|Hne].
    + rewrite IH. split; intros [rest Hrest]; exists rest.
      * by rewrite Hrest.
      * by injection Hrest.
    + split; [done|]. intros [rest Hrest]. by injection Hrest.
Qed.

Lemma string_includes_occurs needle haystack :
  string_includes needle haystack = true
  <-> exists before rest, haystack = before ++ needle ++ rest.
Proof.
  induction haystack as [|b haystack IH].
  - change (string_includes needle "")
      with (String.prefix needle "" || false).
    rewrite orb_false_r, prefix_app. split.
    + intros [rest Hrest]. by exists "", rest.
    + intros (before & rest & Heq). exists rest.
      destruct before; [done|discriminate].
  - change (string_includes needle (String b haystack))
      with (String.prefix needle (String b haystack)
            || string_includes needle haystack).
    rewrite orb_true_iff, prefix_app, IH. split.
    + intros [[rest Hrest] | (before & rest & Heq)].
      * by exists "", rest.
      * exists (String b before), rest. cbn. by rewrite Heq.
    + intros (before & rest & Heq). destruct before as [|b' before].
      * left. by exists rest.
      * right. injection Heq as _ Heq. by exists before, rest.
Qed.

(** X14. The existence check [result.includes(walletName)]: a list has
    the wallet when the name is one of its elements as a string; a string
    has it when the name occurs in it; any other result makes the check
    throw a [TypeError]. *)
Theorem includes_semantics (v : value) (s : string) :
  match v with
  | Arr items => includes v s = Resolved true <-> In (Str s) items
  | Str text =>
      includes v s = Resolved true
      <-> exists before rest, text = before ++ s ++ rest
  | _ => includes v s = Rejected TypeError
  end.
Proof.
  destruct v as [| |b|n|text|items|fields]; cbn; try done.
  - rewrite <- string_includes_occurs. split; congruence.
  - rewrite <- includes_array. split; congruence.
Qed.

(** *** A node that cannot be reached *)

(** X15. When every request fails in the transport, every call on a live
    handle other than [getFee] rejects with the transport's error after
    exactly one request, the funds-moving calls after the check only;
    [newInstance] rejects likewise after [listwallets] alone.  Nothing is
    tried twice. *)
Theorem unreachable_node_rejects_after_one_request
    w this object c httpUrl username password walletName privkey detail :
  (forall s req, fst (serve s req) = Failed detail) ->
  heap w !! this = Some object ->
  c <> GetFee ->
  let r := invoke toBitcoin Node serve this c w in
  let n :=
    newInstance Node serve httpUrl username password walletName privkey w in
  outcome r = Rejected (AxiosError detail)
  /\ length (calls r) = 1
  /\ issues "sendtoaddress" (calls r) = false
  /\ issues "sendrawtransaction" (calls r) = false
  /\ outcome n = Rejected (AxiosError detail)
  /\ calls n
     = [listwallets_request httpUrl
          {| username := username; password := password |}].
Proof.
  intros Hdown Hobj Hcall r n. subst r n.
  rewrite newInstance_run. cbn zeta. rewrite Hdown. cbn [listed].
  destruct c; cbn [invoke]; try done.
  - unfold getBalance. rewrite (result_call_run _ _ _ _ Hobj).
    cbn. by rewrite Hdown.
  - unfold getAddress. rewrite (result_call_run _ _ _ _ Hobj).
    cbn. by rewrite Hdown.
  - rewrite (sendToAddress_run _ _ _ _ _ address satoshis network Hobj),
      (assertNetwork_run _ _ _ _ network Hobj). cbn. rewrite Hdown. cbn.
    by destruct (toBitcoin satoshis).
  - rewrite (broadcastTransaction_run _ _ _ _ transactionHex network Hobj),
      (assertNetwork_run _ _ _ _ network Hobj). cbn. by rewrite Hdown.
  - unfold await. rewrite (close_run _ _ _ Hobj). cbn. by rewrite Hdown.
Qed.

End Coverage.

(** ** The remaining operations at concrete inputs *)

Lemma balance_and_address_send_one_request_witness :
  let w := Sim.world ["c"] (Str "regtest") [Sim.handle] in
  calls (getBalance Sim.state Sim.serve 0 w)
  = [getbalance_request (rpcRequestConfig Sim.handle)]
  /\ outcome (getAddress Sim.state Sim.serve 0 w) = Resolved Null.
Proof.
  intros w.
  destruct (balance_and_address_send_one_request Sim.serve w 0 Sim.handle
              eq_refl) as (Hbalance & _ & _ & Haddress & _).
  split; [exact Hbalance|exact Haddress].
Defined.

Lemma close_sends_one_unloadwallet_witness :
  let w := Sim.world ["c"] (Str "regtest") [Sim.handle] in
  calls (close Sim.state Sim.serve 0 w)
  = [unloadwallet_request (rpcRequestConfig Sim.handle)]
  /\ heap (after (close Sim.state Sim.serve 0 w)) !! 0 = Some Sim.handle.
Proof.
  intros w.
  destruct (close_sends_one_unloadwallet Sim.serve w 0 Sim.handle eq_refl)
    as (Hcalls & _ & _ & Hkept).
  split; [exact Hcalls|exact Hkept].
Defined.

Lemma sim_reports_chain (names : list string) (c : value)
    (objects : list BitcoindWallet) (config : AxiosRequestConfig) :
  reports_chain
    (fst (Sim.serve (node (Sim.world names c objects))
            (getblockchaininfo_request config))) c.
Proof. eexists _, _. split_and!; reflexivity. Qed.

Lemma assertNetwork_passes_iff_witness :
  outcome (assertNetwork Sim.state Sim.serve 0 regtest
             (Sim.world ["c"] (Str "regtest") [Sim.handle]))
  = Resolved tt.
Proof.
  apply (assertNetwork_passes_iff Sim.serve
           (Sim.world ["c"] (Str "regtest") [Sim.handle]) 0 Sim.handle
           regtest eq_refl).
  apply sim_reports_chain.
Defined.

Lemma broadcastTransaction_sends_iff_check_passes_witness :
  let w := Sim.world ["c"] (Str "regtest") [Sim.handle] in
  let config := rpcRequestConfig Sim.handle in
  calls (broadcastTransaction Sim.state Sim.serve 0 "0200" regtest w)
  = [getblockchaininfo_request config;
     sendrawtransaction_request config "0200"].
Proof.
  intros w config.
  destruct (broadcastTransaction_sends_iff_check_passes Sim.serve w 0
              Sim.handle "0200" regtest eq_refl) as [_ Hsent].
  apply Hsent, sim_reports_chain.
Defined.

Lemma sendToAddress_sends_iff_check_passes_and_amount_converts_witness :
  let w := Sim.world ["c"] (Str "regtest") [Sim.handle] in
  let config := rpcRequestConfig Sim.handle in
  calls (sendToAddress Sim.toBitcoin Sim.state Sim.serve 0 "addr1"
           50000000%float regtest w)
  = [getblockchaininfo_request config;
     sendtoaddress_request config "addr1" 0.5%float].
Proof.
  intros w config.
  destruct (sendToAddress_sends_iff_check_passes_and_amount_converts
              Sim.toBitcoin Sim.serve w 0 Sim.handle "addr1" 50000000%float
              regtest eq_refl) as (_ & Hsent & _).
  apply (Hsent 0.5%float); [apply sim_reports_chain|reflexivity].
Defined.

Lemma funds_request_needs_requested_network_at_check_witness :
  issues "sendrawtransaction"
    (calls (broadcastTransaction Sim.state Sim.serve 0 "0200" testnet
              (Sim.world ["c"] (Str "testnet") [Sim.handle])))
  = true.
Proof.
  destruct (funds_request_needs_requested_network_at_check Sim.toBitcoin
              Sim.serve
              (Sim.world ["c"] (Str "testnet") [Sim.handle]) 0 Sim.handle
              "addr1" 1%float "0200" testnet testnet eq_refl
              (sim_reports_chain _ _ _ _)) as [Hiff _].
  by apply Hiff.
Defined.

Lemma newInstance_allocates_only_on_success_witness :
  let w := Sim.world ["a"; "b"] (Str "regtest") [Sim.handle] in
  let r :=
    newInstance Sim.state Sim.serve "http://localhost:18443" "alice" "secret"
      "b" None w in
  outcome r = Resolved 1 /\ heap (after r) !! 0 = Some Sim.handle.
Proof.
  intros w r. split; [reflexivity|].
  destruct (newInstance_allocates_only_on_success Sim.serve w
              "http://localhost:18443" "alice" "secret" "b" None)
    as [_ Hdone].
  destruct (Hdone 1 eq_refl) as (_ & _ & _ & Hkept).
  by apply Hkept.
Defined.

Lemma createwallet_sent_iff_name_not_listed_witness :
  let w := Sim.world ["a"; "b"] (Str "regtest") [] in
  issues "createwallet"
    (calls (newInstance Sim.state Sim.serve "http://localhost:18443" "alice"
              "secret" "c" None w))
  = true.
Proof.
  intros w.
  destruct (createwallet_sent_iff_name_not_listed Sim.serve w
              "http://localhost:18443" "alice" "secret" "c" None
              {| response_data :=
                   Obj [("result", Arr [Str "a"; Str "b"]); ("error", Null);
                        ("id", Null)] |}
              [Str "a"; Str "b"] eq_refl eq_refl) as [Hiff _].
  apply Hiff. intros [Ha | [Hb | []]]; discriminate.
Defined.

Lemma newInstance_stops_at_failed_request_witness :
  let body := Obj [("result", Arr [])] in
  let r :=
    newInstance nat (failing_after body "socket hang up")
      "http://localhost:18443" "alice" "secret" "c" (Some "cKey")
      {| node := 1; heap := [] |} in
  outcome r = Rejected (AxiosError "socket hang up")
  /\ map method_of (calls r) = ["listwallets"; "createwallet"].
Proof.
  intros body r.
  destruct (newInstance_stops_at_failed_request
              (failing_after body "socket hang up")
              {| node := 1; heap := [] |} "http://localhost:18443" "alice"
              "secret" "c" (Some "cKey") "socket hang up" eq_refl)
    as [Hcreate _].
  destruct (Hcreate eq_refl) as (Houtcome & Hcalls & _).
  split; [exact Houtcome|]. subst r. rewrite Hcalls. reflexivity.
Defined.

Lemma newInstance_rejects_malformed_listing_witness :
  let body := Obj [("result", Null); ("error", Str "loading")] in
  outcome (newInstance nat (failing_after body "socket hang up")
             "http://localhost:18443" "alice" "secret" "c" None
             {| node := 1; heap := [] |})
  = Rejected TypeError.
Proof.
  intros body.
  destruct (newInstance_rejects_malformed_listing
              (failing_after body "socket hang up")
              {| node := 1; heap := [] |} "http://localhost:18443" "alice"
              "secret" "c" None {| response_data := body |} eq_refl)
    as (Houtcome & _); [discriminate|discriminate|exact Houtcome].
Defined.

Lemma constructed_handle_calls_wallet_path_witness :
  let w := Sim.world ["a"; "b"] (Str "regtest") [] in
  let r :=
    newInstance Sim.state Sim.serve "http://localhost:18443" "alice" "secret"
      "c" None w in
  Forall (fun c =>
            url c = "http://localhost:18443/wallet/c"
            /\ method c = "post" /\ auth c = Sim.alice)
    (fst (session Sim.toBitcoin Sim.state Sim.serve 0
            [GetAddress; SendToAddress "addr1" 1%float regtest; Close]
            (after r))).
Proof.
  intros w r.
  apply (constructed_handle_calls_wallet_path Sim.toBitcoin Sim.serve w
           "http://localhost:18443" "alice" "secret" "c" None 0).
  reflexivity.
Defined.

Lemma unreachable_node_rejects_after_one_request_witness :
  let w := {| node := tt; heap := [Sim.handle] |} in
  outcome (invoke Sim.toBitcoin unit (unreachable "connect ECONNREFUSED") 0
             (SendToAddress "addr1" 1%float regtest) w)
  = Rejected (AxiosError "connect ECONNREFUSED")
  /\ outcome (newInstance unit (unreachable "connect ECONNREFUSED")
                "http://localhost:18443" "alice" "secret" "c" None w)
     = Rejected (AxiosError "connect ECONNREFUSED").
Proof.
  intros w.
  destruct (unreachable_node_rejects_after_one_request Sim.toBitcoin
              (unreachable "connect ECONNREFUSED") w 0 Sim.handle
              (SendToAddress "addr1" 1%float regtest)
              "http://localhost:18443" "alice" "secret" "c" None
              "connect ECONNREFUSED" (fun _ _ => eq_refl) eq_refl
              ltac:(discriminate))
    as (Hcall & _ & _ & _ & Hnew & _).
  split; [exact Hcall|exact Hnew].
Defined.


